(** * Question Recommendation API: allocation core

    A shallow embedding of [model.py], [recommendation_service.py] and the
    validation gate of [main.py], followed by the properties of the
    allocation algorithm.

    Python integers are unbounded, so they are modelled by [Z]; Python's
    [//] and [%] are floor division and floor modulo, which is what [Z.div]
    and [Z.modulo] compute.  Code that may raise returns a [result]. *)

From Stdlib Require Import ZArith Lia Ascii.
From stdpp Require Import base option list gmap strings pretty.

Local Open Scope Z_scope.

(** ** Exceptions and results *)

(** The exceptions the modelled code can raise.  pydantic's
    [ValidationError] is a subclass of [ValueError]; it records the model,
    the field and the offending value. *)
Inductive exn : Type :=
  | ValueError (message : string)
  | ValidationError (model field : string) (value : Z)
  | ZeroDivisionError
  | NotImplementedError.

Inductive result (A : Type) : Type :=
  | Ok (a : A)
  | Raise (e : exn).

Arguments Ok {A} a.
Arguments Raise {A} e.

#[export] Instance result_ret : MRet result := fun A a => Ok a.

#[export] Instance result_bind : MBind result := fun A B f m =>
  match m with
  | Ok a => f a
  | Raise e => Raise e
  end.

(** [isinstance(e, ValueError)] *)
Definition is_ValueError (e : exn) : bool :=
  match e with
  | ValueError _ | ValidationError _ _ _ => true
  | ZeroDivisionError | NotImplementedError => false
  end.

(** Python's [a // b] and [a % b] on integers. *)
Definition py_floordiv (a b : Z) : result Z :=
  if b =? 0 then Raise ZeroDivisionError else Ok (a / b).

Definition py_mod (a b : Z) : result Z :=
  if b =? 0 then Raise ZeroDivisionError else Ok (a mod b).

(** Python's [len] and [sum]. *)
Definition len {A : Type} (l : list A) : Z := Z.of_nat (length l).

Definition sum (l : list Z) : Z := foldl Z.add 0 l.

(** ** model.py *)

(** Each pydantic model is a record; [new] is the validating constructor
    (the [Field(..., ge=0)] constraints) and [valid] is the same constraint
    as a predicate on an already built value. *)

Module LevelAvailability.
Record t : Type := mk { level : Z; count : Z }.

Definition valid (la : t) : bool := 0 <=? count la.

Definition new (level count : Z) : result t :=
  if 0 <=? count then Ok (mk level count)
  else Raise (ValidationError "LevelAvailability" "count" count).
End LevelAvailability.

Module TopicAvailability.
Record t : Type := mk { topic : string; available : list LevelAvailability.t }.

Definition valid (ta : t) : bool := forallb LevelAvailability.valid (available ta).
End TopicAvailability.

Module LevelProgress.
Record t : Type := mk { level : Z; solved : Z; attempted : Z }.

Definition valid (lp : t) : bool := (0 <=? solved lp) && (0 <=? attempted lp).
End LevelProgress.

Module TopicProgress.
Record t : Type := mk { topic : string; progress_by_level : list LevelProgress.t }.

Definition valid (tp : t) : bool := forallb LevelProgress.valid (progress_by_level tp).

Definition get_level_progress (self : t) (level : Z) : option LevelProgress.t :=
  List.find (fun p => LevelProgress.level p =? level) (progress_by_level self).
End TopicProgress.

Module RecommendationRequest.
Record t : Type := mk {
  user_id : Z;
  total_questions : Z;
  user_topics : list TopicAvailability.t;
  user_progress : list TopicProgress.t
}.

Definition valid (r : t) : bool :=
  (1 <=? total_questions r)
  && forallb TopicAvailability.valid (user_topics r)
  && forallb TopicProgress.valid (user_progress r).
End RecommendationRequest.

Module LevelRecommendation.
Record t : Type := mk { level : Z; count : Z }.

Definition new (level count : Z) : result t :=
  if 0 <=? count then Ok (mk level count)
  else Raise (ValidationError "LevelRecommendation" "count" count).
End LevelRecommendation.

Module TopicRecommendation.
Record t : Type := mk { name : string; recommendations : list LevelRecommendation.t }.

Definition total_recommended (self : t) : Z :=
  sum (LevelRecommendation.count <$> recommendations self).
End TopicRecommendation.

Module RecommendationResponse.
Record t : Type := mk { topics : list TopicRecommendation.t }.

Definition total_recommended (self : t) : Z :=
  sum (TopicRecommendation.total_recommended <$> topics self).
End RecommendationResponse.

(** ** recommendation_service.py *)

(** The strategy interface: one operation. *)
Record DistributionStrategy : Type := {
  distribute_questions :
    list LevelAvailability.t -> Z -> option TopicProgress.t ->
    result (list LevelRecommendation.t)
}.

(** The abstract base class. *)
Definition AbstractDistributionStrategy : DistributionStrategy :=
  {| distribute_questions := fun _ _ _ => Raise NotImplementedError |}.

(** [base_questions_per_level + (1 if i < extra_questions else 0)] *)
Definition questions_for_level (base_questions_per_level extra_questions i : Z) : Z :=
  base_questions_per_level + (if i <? extra_questions then 1 else 0).

(** The body of the [for i, level_data in enumerate(available_levels)] loop
    of [EvenDistributionStrategy.distribute_questions]; [i] is the index of
    the head of [levels] and [recommendations] the list built so far. *)
Fixpoint even_distribution_loop
    (base_questions_per_level extra_questions i : Z)
    (levels : list LevelAvailability.t)
    (recommendations : list LevelRecommendation.t)
    : result (list LevelRecommendation.t) :=
  match levels with
  | [] => Ok recommendations
  | level_data :: levels' =>
      let recommended_count :=
        Z.min (questions_for_level base_questions_per_level extra_questions i)
              (LevelAvailability.count level_data) in
      rec ← LevelRecommendation.new (LevelAvailability.level level_data) recommended_count;
      even_distribution_loop base_questions_per_level extra_questions (i + 1)
        levels' (recommendations ++ [rec])
  end.

Definition even_distribute_questions
    (available_levels : list LevelAvailability.t) (total_questions : Z)
    (topic_progress : option TopicProgress.t)
    : result (list LevelRecommendation.t) :=
  match available_levels with
  | [] => Ok []
  | _ :: _ =>
      let level_count := len available_levels in
      base_questions_per_level ← py_floordiv total_questions level_count;
      extra_questions ← py_mod total_questions level_count;
      even_distribution_loop base_questions_per_level extra_questions 0
        available_levels []
  end.

Definition EvenDistributionStrategy : DistributionStrategy :=
  {| distribute_questions := even_distribute_questions |}.

(** The placeholder strategy builds an [EvenDistributionStrategy] and calls it. *)
Definition ProgressAwareDistributionStrategy : DistributionStrategy :=
  {| distribute_questions := fun available_levels total_questions topic_progress =>
       let even_strategy := EvenDistributionStrategy in
       distribute_questions even_strategy available_levels total_questions topic_progress |}.

Module RecommendationService.
Record t : Type := mk { distribution_strategy : DistributionStrategy }.

Definition __init__ : t := mk EvenDistributionStrategy.

(** [{progress.topic: progress for progress in user_progress}]: a later
    entry for the same topic name replaces an earlier one. *)
Definition _create_progress_lookup (user_progress : list TopicProgress.t)
    : gmap string TopicProgress.t :=
  foldl (fun d progress => <[TopicProgress.topic progress := progress]> d) ∅ user_progress.

Definition _calculate_topic_allocation
    (current_topic : TopicAvailability.t) (total_questions : Z)
    (all_topics : list TopicAvailability.t) : result Z :=
  let total_topics := len all_topics in
  if 0 <? total_topics then py_floordiv total_questions total_topics else Ok 0.

(** [all_topics or [topic]] with [all_topics] defaulting to [None]. *)
Definition all_topics_or (all_topics : option (list TopicAvailability.t))
    (topic : TopicAvailability.t) : list TopicAvailability.t :=
  match all_topics with
  | Some [] | None => [topic]
  | Some l => l
  end.

Definition _recommend_for_topic (self : t)
    (topic : TopicAvailability.t) (total_questions : Z)
    (topic_progress : option TopicProgress.t)
    (all_topics : option (list TopicAvailability.t))
    : result TopicRecommendation.t :=
  topic_question_allocation ←
    _calculate_topic_allocation topic total_questions (all_topics_or all_topics topic);
  level_recommendations ←
    distribute_questions (distribution_strategy self)
      (TopicAvailability.available topic) topic_question_allocation topic_progress;
  Ok (TopicRecommendation.mk (TopicAvailability.topic topic) level_recommendations).

(** The [for topic in request.user_topics] loop of [generate_recommendations]. *)
Fixpoint generate_loop (self : t) (request : RecommendationRequest.t)
    (progress_lookup : gmap string TopicProgress.t)
    (topics : list TopicAvailability.t)
    (topic_recommendations : list TopicRecommendation.t)
    : result (list TopicRecommendation.t) :=
  match topics with
  | [] => Ok topic_recommendations
  | topic :: topics' =>
      let topic_progress := progress_lookup !! TopicAvailability.topic topic in
      recommendation ←
        _recommend_for_topic self topic
          (RecommendationRequest.total_questions request)
          topic_progress
          (Some (RecommendationRequest.user_topics request));
      generate_loop self request progress_lookup topics'
        (topic_recommendations ++ [recommendation])
  end.

Definition generate_recommendations (self : t) (request : RecommendationRequest.t)
    : result RecommendationResponse.t :=
  let progress_lookup :=
    _create_progress_lookup (RecommendationRequest.user_progress request) in
  topic_recommendations ←
    generate_loop self request progress_lookup
      (RecommendationRequest.user_topics request) [];
  Ok (RecommendationResponse.mk topic_recommendations).
End RecommendationService.

(** ** main.py *)

Definition msg_no_topics : string := "At least one topic must be provided".

Definition msg_total_questions : string := "Total questions must be greater than 0".

(** [f"Topic '{topic.topic}' must have at least one available level"] *)
Definition msg_no_levels (topic : string) : string :=
  "Topic '" +:+ topic +:+ "' must have at least one available level".

(** [f"Topic '{topic.topic}' has no available questions"] *)
Definition msg_no_questions (topic : string) : string :=
  "Topic '" +:+ topic +:+ "' has no available questions".

(** [sum(level.count for level in topic.available)] *)
Definition total_available (topic : TopicAvailability.t) : Z :=
  sum (LevelAvailability.count <$> TopicAvailability.available topic).

(** The [for topic in request.user_topics] loop of
    [_validate_recommendation_request]. *)
Fixpoint validate_topics (topics : list TopicAvailability.t) : result unit :=
  match topics with
  | [] => Ok tt
  | topic :: topics' =>
      match TopicAvailability.available topic with
      | [] => Raise (ValueError (msg_no_levels (TopicAvailability.topic topic)))
      | _ :: _ =>
          if total_available topic =? 0
          then Raise (ValueError (msg_no_questions (TopicAvailability.topic topic)))
          else validate_topics topics'
      end
  end.

Definition _validate_recommendation_request (request : RecommendationRequest.t)
    : result unit :=
  match RecommendationRequest.user_topics request with
  | [] => Raise (ValueError msg_no_topics)
  | _ :: _ =>
      if RecommendationRequest.total_questions request <=? 0
      then Raise (ValueError msg_total_questions)
      else validate_topics (RecommendationRequest.user_topics request)
  end.

Inductive HTTPException : Type :=
  | mkHTTPException (status_code : Z) (detail : string).

Definition msg_internal_error : string :=
  "Internal server error occurred while processing recommendation".

(** What a call of the handler ends in: it returns the response, raises an
    [HTTPException], or lets another exception escape. *)
Inductive outcome : Type :=
  | Returns (response : RecommendationResponse.t)
  | RaisesHTTP (e : HTTPException)
  | RaisesOther (e : exn).

(** CPython refuses to convert an integer of more than
    [sys.get_int_max_str_digits()] decimal digits to [str]; a limit of 0
    switches the check off.  [int_str_ok limit n] tells whether [n] is
    converted under the limit [limit]. *)
Definition int_str_ok (limit n : Z) : bool :=
  negb ((0 <? limit) && (10 ^ limit <=? Z.abs n)).

Definition msg_int_limit (limit : Z) : string :=
  "Exceeds the limit (" +:+ pretty limit
  +:+ " digits) for integer string conversion; use sys.set_int_max_str_digits() to increase the limit".

Section Endpoint.
(** How pydantic prints a [ValidationError] is not part of this
    repository; the endpoint is parameterised by it. *)
Variable str_ValidationError : string -> string -> Z -> string.

(** Nor is the interpreter's limit on integer to string conversion (4300
    digits unless reconfigured, 0 for none). *)
Variable int_max_str_digits : Z.

(** [str(e)] for the exceptions caught as [ValueError]. *)
Definition str_exn (e : exn) : string :=
  match e with
  | ValueError message => message
  | ValidationError model field value => str_ValidationError model field value
  | ZeroDivisionError => "integer division or modulo by zero"
  | NotImplementedError => ""
  end.

(** [str(n)], as the f-strings of the handler apply it to an integer. *)
Definition str_int (n : Z) : result string :=
  if int_str_ok int_max_str_digits n then Ok (pretty n)
  else Raise (ValueError (msg_int_limit int_max_str_digits)).

(** The messages handed to the logger.  An f-string is evaluated before the
    logger is called, whatever the log level, so building the message can
    raise; the log records themselves are not kept. *)

(** [f"Processing recommendation request for user {request.user_id}"] *)
Definition log_processing (request : RecommendationRequest.t) : result string :=
  user_id ← str_int (RecommendationRequest.user_id request);
  Ok ("Processing recommendation request for user " +:+ user_id).

(** [f"Request details: {request.total_questions} questions across
    {len(request.user_topics)} topics"] *)
Definition log_request_details (request : RecommendationRequest.t) : result string :=
  total_questions ← str_int (RecommendationRequest.total_questions request);
  topics ← str_int (len (RecommendationRequest.user_topics request));
  Ok ("Request details: " +:+ total_questions +:+ " questions across "
      +:+ topics +:+ " topics").

(** [f"Generated {response.total_recommended} total recommendations for
    user {request.user_id}"] *)
Definition log_generated (request : RecommendationRequest.t)
    (response : RecommendationResponse.t) : result string :=
  total_recommended ← str_int (RecommendationResponse.total_recommended response);
  user_id ← str_int (RecommendationRequest.user_id request);
  Ok ("Generated " +:+ total_recommended +:+ " total recommendations for user "
      +:+ user_id).

(** [f"Validation error for user {request.user_id}: {str(e)}"] *)
Definition log_validation_error (request : RecommendationRequest.t) (e : exn)
    : result string :=
  user_id ← str_int (RecommendationRequest.user_id request);
  Ok ("Validation error for user " +:+ user_id +:+ ": " +:+ str_exn e).

(** [f"Unexpected error processing request for user {request.user_id}:
    {str(e)}"] *)
Definition log_unexpected_error (request : RecommendationRequest.t) (e : exn)
    : result string :=
  user_id ← str_int (RecommendationRequest.user_id request);
  Ok ("Unexpected error processing request for user " +:+ user_id +:+ ": "
      +:+ str_exn e).

(** The [/recommend] handler, for the module-level service
    [recommendation_service].  An exception raised while an [except] block
    runs is caught by no clause of the same [try] and leaves the handler. *)
Definition recommend_questions (recommendation_service : RecommendationService.t)
    (request : RecommendationRequest.t) : outcome :=
  let body : result RecommendationResponse.t :=
    _ ← log_processing request;
    _ ← log_request_details request;
    _ ← _validate_recommendation_request request;
    response ←
      RecommendationService.generate_recommendations recommendation_service request;
    _ ← log_generated request response;
    Ok response in
  match body with
  | Ok response => Returns response
  | Raise e =>
      if is_ValueError e
      then
        match log_validation_error request e with
        | Ok _ => RaisesHTTP (mkHTTPException 400 (str_exn e))
        | Raise e' => RaisesOther e'
        end
      else
        match log_unexpected_error request e with
        | Ok _ => RaisesHTTP (mkHTTPException 500 msg_internal_error)
        | Raise e' => RaisesOther e'
        end
  end.
End Endpoint.

(** The service instance built at import time. *)
Definition recommendation_service : RecommendationService.t :=
  RecommendationService.__init__.

(** ** The scenarios of the specification, run on the model *)

Definition lvl (level count : Z) : LevelAvailability.t := LevelAvailability.mk level count.

Definition rec_ (level count : Z) : LevelRecommendation.t := LevelRecommendation.mk level count.

Definition request_two_topics (total : Z) : RecommendationRequest.t :=
  RecommendationRequest.mk 1 total
    [TopicAvailability.mk "A" [lvl 1 10]; TopicAvailability.mk "B" [lvl 1 10]]
    [TopicProgress.mk "A" [LevelProgress.mk 1 3 4]].

Example scenario_seven_over_two_topics :
  RecommendationService.generate_recommendations recommendation_service (request_two_topics 7)
  = Ok (RecommendationResponse.mk
          [TopicRecommendation.mk "A" [rec_ 1 3]; TopicRecommendation.mk "B" [rec_ 1 3]]).
Proof. vm_compute. reflexivity. Qed.

Example scenario_clamping :
  distribute_questions EvenDistributionStrategy [lvl 1 2; lvl 2 100] 5 None
  = Ok [rec_ 1 2; rec_ 2 2].
Proof. reflexivity. Qed.

Example scenario_one_over_two_topics :
  RecommendationService.generate_recommendations recommendation_service (request_two_topics 1)
  = Ok (RecommendationResponse.mk
          [TopicRecommendation.mk "A" [rec_ 1 0]; TopicRecommendation.mk "B" [rec_ 1 0]]).
Proof. vm_compute. reflexivity. Qed.

Example scenario_negative_count_raises :
  distribute_questions EvenDistributionStrategy [lvl 1 (-1); lvl 2 2] 1 None
  = Raise (ValidationError "LevelRecommendation" "count" (-1)).
Proof. reflexivity. Qed.

(** ** Auxiliary facts: sums *)

Lemma foldl_add_shift (l : list Z) (a : Z) : foldl Z.add a l = a + foldl Z.add 0 l.
Proof.
  revert a. induction l as [|x l IH]; intros a; simpl.
  - lia.
  - rewrite (IH (a + x)), (IH (0 + x)). lia.
Qed.

Lemma sum_nil : sum [] = 0.
Proof. reflexivity. Qed.

Lemma sum_cons (x : Z) (l : list Z) : sum (x :: l) = x + sum l.
Proof. unfold sum. cbn [foldl]. rewrite foldl_add_shift. lia. Qed.

Lemma sum_app (l1 l2 : list Z) : sum (l1 ++ l2) = sum l1 + sum l2.
Proof.
  induction l1 as [|x l1 IH]; simpl.
  - rewrite sum_nil. lia.
  - rewrite !sum_cons, IH. lia.
Qed.

Lemma sum_const (A : Type) (c : Z) (l : list A) :
  sum ((fun _ => c) <$> l) = len l * c.
Proof.
  unfold len. induction l as [|x l IH]; simpl length.
  - reflexivity.
  - rewrite fmap_cons, sum_cons, IH. lia.
Qed.

Lemma sum_le_pointwise (l1 l2 : list Z) :
  Forall2 Z.le l1 l2 -> sum l1 <= sum l2.
Proof.
  induction 1 as [|x y l1 l2 Hxy _ IH].
  - lia.
  - rewrite !sum_cons. lia.
Qed.

Lemma sum_le_const (c : Z) (l : list Z) :
  Forall (fun x => x <= c) l -> sum l <= len l * c.
Proof.
  unfold len. induction 1 as [|x l Hx _ IH]; simpl length.
  - rewrite sum_nil. lia.
  - rewrite sum_cons. lia.
Qed.

(** ** Auxiliary facts: the even distribution *)

(** The recommendation the loop builds for the level at index [i]. *)
Definition clamped (base extra : Z) (i : nat) (la : LevelAvailability.t)
    : LevelRecommendation.t :=
  LevelRecommendation.mk (LevelAvailability.level la)
    (Z.min (questions_for_level base extra (Z.of_nat i)) (LevelAvailability.count la)).

Lemma questions_for_level_lower (base extra i : Z) :
  base <= questions_for_level base extra i.
Proof. unfold questions_for_level. destruct (i <? extra); lia. Qed.

Lemma LevelRecommendation_new_ok (level count : Z) :
  0 <= count -> LevelRecommendation.new level count = Ok (LevelRecommendation.mk level count).
Proof.
  intros H. unfold LevelRecommendation.new.
  destruct (Z.leb_spec 0 count) as [Hc|Hc]; [reflexivity | lia].
Qed.

Lemma even_distribution_loop_ok (base extra : Z) (levels : list LevelAvailability.t) :
  0 <= base ->
  forallb LevelAvailability.valid levels = true ->
  forall (k : nat) (acc : list LevelRecommendation.t),
    even_distribution_loop base extra (Z.of_nat k) levels acc
    = Ok (acc ++ imap (fun j => clamped base extra (k + j)) levels).
Proof.
  intros Hbase. induction levels as [|la levels IH]; intros Hvalid k acc.
  - simpl. rewrite app_nil_r. reflexivity.
  - cbn [forallb] in Hvalid. apply andb_prop in Hvalid as [Hla Hrest].
    unfold LevelAvailability.valid in Hla. apply Z.leb_le in Hla.
    cbn [even_distribution_loop].
    rewrite LevelRecommendation_new_ok.
    2:{ pose proof (questions_for_level_lower base extra (Z.of_nat k)). lia. }
    cbn [mbind result_bind].
    replace (Z.of_nat k + 1) with (Z.of_nat (S k)) by lia.
    rewrite (IH Hrest (S k)). rewrite imap_cons, <- app_assoc. cbn [app].
    f_equal. f_equal. unfold clamped at 2. rewrite Nat.add_0_r. f_equal.
    apply imap_ext. intros j x _. cbn. f_equal. lia.
Qed.

Lemma even_distribute_questions_ok
    (levels : list LevelAvailability.t) (A : Z) (p : option TopicProgress.t) :
  0 <= A ->
  forallb LevelAvailability.valid levels = true ->
  even_distribute_questions levels A p
  = Ok (imap (clamped (A / len levels) (A mod len levels)) levels).
Proof.
  intros HA Hvalid. unfold even_distribute_questions.
  destruct levels as [|la levels']; [reflexivity|].
  set (levels := la :: levels') in *.
  assert (HL : 0 < len levels) by (unfold len, levels; simpl length; lia).
  unfold py_floordiv, py_mod.
  destruct (Z.eqb_spec (len levels) 0) as [H0|_]; [lia|].
  cbn [mbind result_bind].
  change 0 with (Z.of_nat 0) at 1.
  rewrite even_distribution_loop_ok; [reflexivity | | assumption].
  apply Z.div_pos; lia.
Qed.

(** ** Auxiliary facts: the service *)

(** What the default service recommends for one topic when [total] questions
    are split over [n] topics. *)
Definition recommend_topic (total n : Z) (topic : TopicAvailability.t)
    : TopicRecommendation.t :=
  let levels := TopicAvailability.available topic in
  let allocation := total / n in
  TopicRecommendation.mk (TopicAvailability.topic topic)
    (imap (clamped (allocation / len levels) (allocation mod len levels)) levels).

Lemma len_pos (A : Type) (l : list A) : l <> [] -> 0 < len l.
Proof. destruct l; [congruence|]. intros _. unfold len. simpl length. lia. Qed.

Lemma len_nonneg (A : Type) (l : list A) : 0 <= len l.
Proof. unfold len. lia. Qed.

Lemma calculate_topic_allocation_ok
    (current_topic : TopicAvailability.t) (total : Z) (all_topics : list TopicAvailability.t) :
  all_topics <> [] ->
  RecommendationService._calculate_topic_allocation current_topic total all_topics
  = Ok (total / len all_topics).
Proof.
  intros Hne. apply len_pos in Hne.
  unfold RecommendationService._calculate_topic_allocation, py_floordiv.
  destruct (Z.ltb_spec 0 (len all_topics)) as [_|Hc]; [|lia].
  destruct (Z.eqb_spec (len all_topics) 0) as [Hc|_]; [lia | reflexivity].
Qed.

Lemma all_topics_or_nonempty (l : list TopicAvailability.t) (topic : TopicAvailability.t) :
  l <> [] -> RecommendationService.all_topics_or (Some l) topic = l.
Proof. destruct l; [congruence | reflexivity]. Qed.

Lemma recommend_for_topic_ok
    (topic : TopicAvailability.t) (total : Z) (p : option TopicProgress.t)
    (all_topics : list TopicAvailability.t) :
  0 <= total ->
  all_topics <> [] ->
  TopicAvailability.valid topic = true ->
  RecommendationService._recommend_for_topic recommendation_service
    topic total p (Some all_topics)
  = Ok (recommend_topic total (len all_topics) topic).
Proof.
  intros Htotal Hne Hvalid. unfold RecommendationService._recommend_for_topic.
  rewrite all_topics_or_nonempty, calculate_topic_allocation_ok by assumption.
  cbn [mbind result_bind recommendation_service RecommendationService.__init__
       RecommendationService.distribution_strategy
       EvenDistributionStrategy distribute_questions].
  rewrite even_distribute_questions_ok; [reflexivity | | exact Hvalid].
  apply Z.div_pos; [assumption | apply len_pos; assumption].
Qed.

Lemma generate_loop_ok
    (request : RecommendationRequest.t) (lookup : gmap string TopicProgress.t)
    (topics : list TopicAvailability.t) :
  0 <= RecommendationRequest.total_questions request ->
  RecommendationRequest.user_topics request <> [] ->
  forallb TopicAvailability.valid topics = true ->
  forall acc : list TopicRecommendation.t,
    RecommendationService.generate_loop recommendation_service request lookup topics acc
    = Ok (acc ++ (recommend_topic (RecommendationRequest.total_questions request)
                    (len (RecommendationRequest.user_topics request)) <$> topics)).
Proof.
  intros Htotal Hne. induction topics as [|topic topics IH]; intros Hvalid acc.
  - simpl. rewrite app_nil_r. reflexivity.
  - cbn [forallb] in Hvalid. apply andb_prop in Hvalid as [Htopic Hrest].
    cbn [RecommendationService.generate_loop].
    rewrite recommend_for_topic_ok by assumption.
    cbn [mbind result_bind]. rewrite (IH Hrest), <- app_assoc. reflexivity.
Qed.

(** The closed form of the response of the default service. *)
Lemma generate_recommendations_ok (request : RecommendationRequest.t) :
  0 <= RecommendationRequest.total_questions request ->
  forallb TopicAvailability.valid (RecommendationRequest.user_topics request) = true ->
  RecommendationService.generate_recommendations recommendation_service request
  = Ok (RecommendationResponse.mk
          (recommend_topic (RecommendationRequest.total_questions request)
             (len (RecommendationRequest.user_topics request))
           <$> RecommendationRequest.user_topics request)).
Proof.
  intros Htotal Hvalid. unfold RecommendationService.generate_recommendations.
  destruct (RecommendationRequest.user_topics request) as [|t ts] eqn:Htopics.
  - reflexivity.
  - rewrite <- Htopics in *. rewrite generate_loop_ok; try assumption.
    + reflexivity.
    + rewrite Htopics. discriminate.
Qed.

Lemma request_valid_inv (request : RecommendationRequest.t) :
  RecommendationRequest.valid request = true ->
  1 <= RecommendationRequest.total_questions request
  /\ forallb TopicAvailability.valid (RecommendationRequest.user_topics request) = true.
Proof.
  unfold RecommendationRequest.valid. intros H.
  apply andb_prop in H as [H _]. apply andb_prop in H as [H1 H2].
  apply Z.leb_le in H1. split; assumption.
Qed.

(** ** Auxiliary facts: validation *)

(** A topic the per-topic checks let through. *)
Definition topic_passes (topic : TopicAvailability.t) : Prop :=
  TopicAvailability.available topic <> [] /\ total_available topic <> 0.

Lemma validate_topics_ok (topics : list TopicAvailability.t) :
  validate_topics topics = Ok tt <-> Forall topic_passes topics.
Proof.
  induction topics as [|topic topics IH]; cbn [validate_topics].
  - split; [constructor | reflexivity].
  - unfold topic_passes at 1.
    destruct (TopicAvailability.available topic) as [|la las] eqn:Hav.
    + split; [discriminate|]. intros H. inversion H as [|? ? [Hne _] _]; subst.
      unfold topic_passes in Hne. congruence.
    + destruct (Z.eqb_spec (total_available topic) 0) as [Hz|Hnz].
      * split; [discriminate|]. intros H. inversion H as [|? ? [_ Hne] _]; subst.
        congruence.
      * rewrite IH. split.
        -- intros H. constructor; [|assumption]. split; [rewrite Hav; discriminate | assumption].
        -- intros H. inversion H; assumption.
Qed.

Lemma validate_topics_first_failure
    (pre : list TopicAvailability.t) (topic : TopicAvailability.t)
    (post : list TopicAvailability.t) :
  Forall topic_passes pre ->
  validate_topics (pre ++ topic :: post) = validate_topics (topic :: post).
Proof.
  induction 1 as [|t pre [Hne Hnz] _ IH]; [reflexivity|].
  cbn [app validate_topics].
  destruct (TopicAvailability.available t); [congruence|].
  destruct (Z.eqb_spec (total_available t) 0); [congruence | exact IH].
Qed.

Lemma validate_topics_raises (topics : list TopicAvailability.t) :
  (exists e, validate_topics topics = Raise e) <-> Exists (fun t => total_available t = 0) topics.
Proof.
  induction topics as [|topic topics IH]; cbn [validate_topics].
  - split; [intros [e He]; discriminate | intros H; inversion H].
  - destruct (TopicAvailability.available topic) as [|la las] eqn:Hav.
    + split; [|eauto]. intros _. left. unfold total_available. rewrite Hav. reflexivity.
    + destruct (Z.eqb_spec (total_available topic) 0) as [Hz|Hnz].
      * split; [|eauto]. intros _. left. assumption.
      * rewrite IH. split; [intros H; right; assumption|].
        intros H. inversion H; [congruence | assumption].
Qed.

(** ** Auxiliary facts: the raw counts *)

(** The pre-clamp counts [questions_for_level] the loop computes, one per
    level, in input order. *)
Definition raw_counts (base extra : Z) (levels : list LevelAvailability.t) : list Z :=
  imap (fun i _ => questions_for_level base extra (Z.of_nat i)) levels.

Lemma sum_raw_counts (base extra : Z) (levels : list LevelAvailability.t) :
  0 <= extra ->
  sum (raw_counts base extra levels) = len levels * base + Z.min (len levels) extra.
Proof.
  intros Hextra. unfold raw_counts, len.
  induction levels as [|la levels IH] using rev_ind.
  - cbn [imap length]. rewrite sum_nil. lia.
  - rewrite imap_app, sum_app, IH, length_app. cbn [imap length].
    rewrite sum_cons, sum_nil, Nat.add_0_r. unfold questions_for_level.
    destruct (Z.ltb_spec (Z.of_nat (length levels)) extra); lia.
Qed.

Lemma sum_raw_counts_exact (A : Z) (levels : list LevelAvailability.t) :
  levels <> [] ->
  sum (raw_counts (A / len levels) (A mod len levels) levels) = A.
Proof.
  intros Hne. apply len_pos in Hne.
  pose proof (Z.mod_pos_bound A (len levels) Hne) as Hmod.
  rewrite sum_raw_counts by lia.
  rewrite Z.min_r by lia.
  pose proof (Z.div_mod A (len levels)). lia.
Qed.

Lemma sum_clamped_le_raw (base extra : Z) (levels : list LevelAvailability.t) :
  sum (LevelRecommendation.count <$> imap (clamped base extra) levels)
  <= sum (raw_counts base extra levels).
Proof.
  apply sum_le_pointwise, Forall2_same_length_lookup. split.
  - unfold raw_counts. rewrite length_fmap, !length_imap. reflexivity.
  - intros i x y Hx Hy. unfold raw_counts in Hy.
    rewrite list_lookup_fmap, list_lookup_imap in Hx.
    rewrite list_lookup_imap in Hy.
    destruct (levels !! i) as [la|]; [|discriminate].
    cbn in Hx, Hy. injection Hx as <-. injection Hy as <-. lia.
Qed.

Lemma topic_total_le_allocation (total n : Z) (topic : TopicAvailability.t) :
  0 <= total / n ->
  TopicRecommendation.total_recommended (recommend_topic total n topic) <= total / n.
Proof.
  intros Halloc. unfold TopicRecommendation.total_recommended, recommend_topic.
  cbn [TopicRecommendation.recommendations].
  destruct (TopicAvailability.available topic) as [|la las] eqn:Hav.
  - cbn [imap fmap list_fmap]. rewrite sum_nil. assumption.
  - rewrite <- Hav. etransitivity; [apply sum_clamped_le_raw|].
    rewrite sum_raw_counts_exact; [lia | rewrite Hav; discriminate].
Qed.

(** ** Auxiliary facts: the messages *)

Fixpoint last_ascii (s : string) (d : Ascii.ascii) : Ascii.ascii :=
  match s with
  | EmptyString => d
  | String c s' => last_ascii s' c
  end.

Lemma last_ascii_app (s1 s2 : string) (d : Ascii.ascii) :
  last_ascii (s1 +:+ s2) d = last_ascii s2 (last_ascii s1 d).
Proof. revert d. induction s1 as [|c s1 IH]; intros d; [reflexivity | apply IH]. Qed.

Lemma msg_no_levels_last (topic : string) (d : Ascii.ascii) :
  last_ascii (msg_no_levels topic) d = "l"%char.
Proof. unfold msg_no_levels. rewrite !last_ascii_app. reflexivity. Qed.

Lemma msg_no_questions_last (topic : string) (d : Ascii.ascii) :
  last_ascii (msg_no_questions topic) d = "s"%char.
Proof. unfold msg_no_questions. rewrite !last_ascii_app. reflexivity. Qed.

Lemma messages_distinct (a b : string) :
  msg_no_topics <> msg_total_questions
  /\ msg_no_topics <> msg_no_levels a
  /\ msg_no_topics <> msg_no_questions a
  /\ msg_total_questions <> msg_no_levels a
  /\ msg_total_questions <> msg_no_questions a
  /\ msg_no_levels a <> msg_no_questions b.
Proof.
  repeat split; try discriminate.
  intros H. apply (f_equal (fun s => last_ascii s "x"%char)) in H.
  rewrite msg_no_levels_last, msg_no_questions_last in H. discriminate.
Qed.

(** ** Auxiliary facts: the endpoint *)

(** The integers the handler prints before it validates are all converted. *)
Definition loggable (limit : Z) (request : RecommendationRequest.t) : bool :=
  int_str_ok limit (RecommendationRequest.user_id request)
  && int_str_ok limit (RecommendationRequest.total_questions request)
  && int_str_ok limit (len (RecommendationRequest.user_topics request)).

Lemma str_int_ok (limit n : Z) :
  int_str_ok limit n = true -> str_int limit n = Ok (pretty n).
Proof. intros H. unfold str_int. rewrite H. reflexivity. Qed.

Lemma str_int_raises (limit n : Z) :
  int_str_ok limit n = false ->
  str_int limit n = Raise (ValueError (msg_int_limit limit)).
Proof. intros H. unfold str_int. rewrite H. reflexivity. Qed.

Lemma int_str_ok_le (limit m n : Z) :
  Z.abs m <= Z.abs n -> int_str_ok limit n = true -> int_str_ok limit m = true.
Proof.
  unfold int_str_ok. intros Hle. destruct (0 <? limit); [|reflexivity].
  cbn [andb]. rewrite !negb_true_iff, !Z.leb_gt. lia.
Qed.

Lemma int_str_ok_below (limit k n : Z) :
  Z.abs n < 10 ^ k -> 0 <= k <= limit -> int_str_ok limit n = true.
Proof.
  intros Hn Hk. unfold int_str_ok. destruct (0 <? limit); [|reflexivity].
  cbn [andb]. rewrite negb_true_iff, Z.leb_gt.
  assert (10 ^ k <= 10 ^ limit) by (apply Z.pow_le_mono_r; lia). lia.
Qed.

Lemma loggable_inv (limit : Z) (request : RecommendationRequest.t) :
  loggable limit request = true ->
  int_str_ok limit (RecommendationRequest.user_id request) = true
  /\ int_str_ok limit (RecommendationRequest.total_questions request) = true
  /\ int_str_ok limit (len (RecommendationRequest.user_topics request)) = true.
Proof.
  unfold loggable. intros H. apply andb_prop in H as [H H3].
  apply andb_prop in H as [H1 H2]. repeat split; assumption.
Qed.

Lemma recommend_questions_service_raises
    (str_ValidationError : string -> string -> Z -> string) (limit : Z)
    (service : RecommendationService.t) (request : RecommendationRequest.t)
    (e : exn) :
  loggable limit request = true ->
  _validate_recommendation_request request = Ok tt ->
  RecommendationService.generate_recommendations service request = Raise e ->
  recommend_questions str_ValidationError limit service request
  = RaisesHTTP (if is_ValueError e
                then mkHTTPException 400 (str_exn str_ValidationError e)
                else mkHTTPException 500 msg_internal_error).
Proof.
  intros Hlog Hgate Hgen. apply loggable_inv in Hlog as (Huid & Htotal & Hlen).
  unfold recommend_questions, log_processing, log_request_details,
    log_validation_error, log_unexpected_error.
  rewrite (str_int_ok _ _ Huid), (str_int_ok _ _ Htotal), (str_int_ok _ _ Hlen).
  cbn [mbind result_bind]. rewrite Hgate. cbn [mbind result_bind]. rewrite Hgen.
  cbn [mbind result_bind]. destruct (is_ValueError e); reflexivity.
Qed.

Lemma recommend_questions_rejected
    (str_ValidationError : string -> string -> Z -> string) (limit : Z)
    (service : RecommendationService.t) (request : RecommendationRequest.t)
    (message : string) :
  loggable limit request = true ->
  _validate_recommendation_request request = Raise (ValueError message) ->
  recommend_questions str_ValidationError limit service request
  = RaisesHTTP (mkHTTPException 400 message).
Proof.
  intros Hlog Hgate. apply loggable_inv in Hlog as (Huid & Htotal & Hlen).
  unfold recommend_questions, log_processing, log_request_details, log_validation_error.
  rewrite (str_int_ok _ _ Huid), (str_int_ok _ _ Htotal), (str_int_ok _ _ Hlen).
  cbn [mbind result_bind]. rewrite Hgate. reflexivity.
Qed.

Lemma recommend_questions_returns
    (str_ValidationError : string -> string -> Z -> string) (limit : Z)
    (service : RecommendationService.t) (request : RecommendationRequest.t)
    (response : RecommendationResponse.t) :
  loggable limit request = true ->
  _validate_recommendation_request request = Ok tt ->
  RecommendationService.generate_recommendations service request = Ok response ->
  int_str_ok limit (RecommendationResponse.total_recommended response) = true ->
  recommend_questions str_ValidationError limit service request = Returns response.
Proof.
  intros Hlog Hgate Hgen Hsum. apply loggable_inv in Hlog as (Huid & Htotal & Hlen).
  unfold recommend_questions, log_processing, log_request_details, log_generated.
  rewrite (str_int_ok _ _ Huid), (str_int_ok _ _ Htotal), (str_int_ok _ _ Hlen).
  cbn [mbind result_bind]. rewrite Hgate. cbn [mbind result_bind]. rewrite Hgen.
  cbn [mbind result_bind]. rewrite (str_int_ok _ _ Hsum). reflexivity.
Qed.

Lemma recommend_questions_before_service
    (str_ValidationError : string -> string -> Z -> string) (limit : Z)
    (service : RecommendationService.t) (request : RecommendationRequest.t)
    (service' : RecommendationService.t) (e : exn) :
  _validate_recommendation_request request = Raise e ->
  recommend_questions str_ValidationError limit service request
  = recommend_questions str_ValidationError limit service' request.
Proof.
  intros Hgate. unfold recommend_questions.
  destruct (log_processing limit request) as [m1|e1]; cbn [mbind result_bind];
    [|reflexivity].
  destruct (log_request_details limit request) as [m2|e2]; cbn [mbind result_bind];
    [|reflexivity].
  rewrite Hgate. reflexivity.
Qed.
(** * Properties *)

(** ** The level distributor *)

(** C1. On an empty level sequence the even distributor returns the empty
    sequence.  On a non-empty sequence of L levels (each a well-formed
    [LevelAvailability], i.e. with a count >= 0) and an allocation A >= 0 it
    returns one [LevelRecommendation] per input level, in input order, and
    the level at index i receives
    [min (base + (1 if i < extra else 0)) count_i] with [base = A // L] and
    [extra = A mod L]. *)
Theorem even_distribution_per_level
    (levels : list LevelAvailability.t) (A : Z) (p : option TopicProgress.t) :
  (levels = [] ->
   distribute_questions EvenDistributionStrategy levels A p = Ok [])
  /\
  (levels <> [] -> 0 <= A -> forallb LevelAvailability.valid levels = true ->
   let L := len levels in
   let base := A / L in
   let extra := A mod L in
   exists recs : list LevelRecommendation.t,
     distribute_questions EvenDistributionStrategy levels A p = Ok recs
     /\ length recs = length levels
     /\ forall (i : nat) (la : LevelAvailability.t),
          levels !! i = Some la ->
          recs !! i =
            Some (LevelRecommendation.mk (LevelAvailability.level la)
                    (Z.min (base + (if Z.of_nat i <? extra then 1 else 0))
                           (LevelAvailability.count la)))).
Proof.
  split.
  - intros ->. reflexivity.
  - intros _ HA Hvalid L base extra.
    exists (imap (clamped base extra) levels). split; [|split].
    + cbn [distribute_questions EvenDistributionStrategy].
      apply even_distribute_questions_ok; assumption.
    + apply length_imap.
    + intros i la Hi. rewrite list_lookup_imap, Hi. reflexivity.
Qed.

Lemma even_distribution_per_level_witness :
  let levels := [lvl 1 2; lvl 2 100] in
  levels <> [] /\ 0 <= 5 /\ forallb LevelAvailability.valid levels = true
  /\ exists recs : list LevelRecommendation.t,
       distribute_questions EvenDistributionStrategy levels 5 None = Ok recs
       /\ length recs = length levels
       /\ forall (i : nat) (la : LevelAvailability.t),
            levels !! i = Some la ->
            recs !! i =
              Some (LevelRecommendation.mk (LevelAvailability.level la)
                      (Z.min (5 / 2 + (if Z.of_nat i <? 5 mod 2 then 1 else 0))
                             (LevelAvailability.count la))).
Proof.
  intros levels.
  assert (Hne : levels <> []) by discriminate.
  assert (HA : 0 <= 5) by lia.
  assert (Hvalid : forallb LevelAvailability.valid levels = true) by reflexivity.
  split; [exact Hne|]. split; [exact HA|]. split; [exact Hvalid|].
  exact (proj2 (even_distribution_per_level levels 5 None) Hne HA Hvalid).
Defined.

(** Whenever the loop returns, it has appended one clamped count per level. *)
Lemma even_distribution_loop_inv (base extra : Z) (levels : list LevelAvailability.t) :
  forall (k : nat) (acc recs : list LevelRecommendation.t),
    even_distribution_loop base extra (Z.of_nat k) levels acc = Ok recs ->
    recs = acc ++ imap (fun j => clamped base extra (k + j)) levels.
Proof.
  induction levels as [|la levels IH]; intros k acc recs; cbn [even_distribution_loop].
  - intros [= <-]. rewrite app_nil_r. reflexivity.
  - unfold LevelRecommendation.new.
    destruct (0 <=? Z.min (questions_for_level base extra (Z.of_nat k))
                          (LevelAvailability.count la));
      cbn [mbind result_bind]; [|discriminate].
    replace (Z.of_nat k + 1) with (Z.of_nat (S k)) by lia.
    intros Hrun. apply IH in Hrun as ->.
    rewrite imap_cons, <- app_assoc. cbn [app].
    f_equal. f_equal; [unfold clamped; rewrite Nat.add_0_r; reflexivity|].
    apply imap_ext. intros j x _. cbn. unfold clamped. do 3 f_equal. lia.
Qed.

Lemma even_distribute_questions_inv
    (levels : list LevelAvailability.t) (A : Z) (p : option TopicProgress.t)
    (recs : list LevelRecommendation.t) :
  even_distribute_questions levels A p = Ok recs ->
  recs = imap (clamped (A / len levels) (A mod len levels)) levels.
Proof.
  unfold even_distribute_questions. destruct levels as [|la levels'].
  - intros [= <-]. reflexivity.
  - set (levels := la :: levels'). unfold py_floordiv, py_mod.
    destruct (len levels =? 0); cbn [mbind result_bind]; [discriminate|].
    change 0 with (Z.of_nat 0) at 1. intros Hrun.
    apply even_distribution_loop_inv in Hrun as ->. reflexivity.
Qed.

Lemma clamped_counts_zip (base extra : Z) (levels : list LevelAvailability.t) :
  LevelRecommendation.count <$> imap (clamped base extra) levels
  = zip_with Z.min (raw_counts base extra levels) (LevelAvailability.count <$> levels).
Proof.
  unfold raw_counts. apply list_eq. intros i.
  rewrite lookup_zip_with, !list_lookup_fmap, !list_lookup_imap.
  destruct (levels !! i) as [la|]; reflexivity.
Qed.

(** C7. For a non-empty level sequence of length L and an allocation
    A >= 0, the raw pre-clamp counts of the distributor ([base + 1] for the
    first [A mod L] levels, [base] for the rest, with [base = A // L]) sum to
    A exactly, i.e. [base * L + extra = A].  They are the counts the
    distributor works with: whatever it returns is, level by level, the
    minimum of the raw count and the available count; it does return when
    the available counts are non-negative; and when no raw count exceeds
    its level's available count, the returned counts are the raw counts
    themselves and sum to A. *)
Theorem raw_counts_sum_to_allocation
    (levels : list LevelAvailability.t) (A : Z) (p : option TopicProgress.t) :
  levels <> [] -> 0 <= A ->
  let L := len levels in
  let base := A / L in
  let extra := A mod L in
  let raw := raw_counts base extra levels in
  sum raw = A
  /\ base * L + extra = A
  /\ (forall (i : nat) (la : LevelAvailability.t),
        levels !! i = Some la ->
        raw !! i = Some (if Z.of_nat i <? extra then base + 1 else base))
  /\ (forall recs : list LevelRecommendation.t,
        distribute_questions EvenDistributionStrategy levels A p = Ok recs ->
        LevelRecommendation.count <$> recs
        = zip_with Z.min raw (LevelAvailability.count <$> levels))
  /\ (forallb LevelAvailability.valid levels = true ->
      exists recs : list LevelRecommendation.t,
        distribute_questions EvenDistributionStrategy levels A p = Ok recs
        /\ LevelRecommendation.count <$> recs
           = zip_with Z.min raw (LevelAvailability.count <$> levels))
  /\ (Forall2 Z.le raw (LevelAvailability.count <$> levels) ->
      exists recs : list LevelRecommendation.t,
        distribute_questions EvenDistributionStrategy levels A p = Ok recs
        /\ LevelRecommendation.count <$> recs = raw
        /\ sum (LevelRecommendation.count <$> recs) = A).
Proof.
  intros Hne HA L base extra raw.
  assert (Hsum : sum raw = A) by (apply sum_raw_counts_exact; assumption).
  assert (HL : 0 < L) by (apply len_pos; assumption).
  assert (Hbase : 0 <= base) by (apply Z.div_pos; assumption).
  split; [exact Hsum|]. split; [|split; [|split; [|split]]].
  - pose proof (Z.div_mod A L). subst base extra. lia.
  - intros i la Hi. unfold raw, raw_counts, questions_for_level.
    rewrite list_lookup_imap, Hi. cbn.
    destruct (Z.of_nat i <? extra); f_equal; lia.
  - intros recs Hrun. cbn [distribute_questions EvenDistributionStrategy] in Hrun.
    apply even_distribute_questions_inv in Hrun as ->. apply clamped_counts_zip.
  - intros Hvalid. eexists. split.
    + cbn [distribute_questions EvenDistributionStrategy].
      apply even_distribute_questions_ok; assumption.
    + apply clamped_counts_zip.
  - intros Hroom.
    assert (Hvalid : forallb LevelAvailability.valid levels = true).
    { apply forallb_forall. intros la Hin.
      apply list_elem_of_In, list_elem_of_lookup in Hin as [i Hi].
      apply Z.leb_le.
      assert (Hc : (LevelAvailability.count <$> levels) !! i
                   = Some (LevelAvailability.count la))
        by (rewrite list_lookup_fmap, Hi; reflexivity).
      destruct (Forall2_lookup_r _ _ _ _ _ Hroom Hc) as (r & Hr & Hle).
      unfold raw, raw_counts in Hr. rewrite list_lookup_imap, Hi in Hr.
      cbn in Hr. injection Hr as <-.
      pose proof (questions_for_level_lower base extra (Z.of_nat i)). lia. }
    assert (Hcounts : LevelRecommendation.count <$> imap (clamped base extra) levels = raw).
    { rewrite clamped_counts_zip. fold raw.
      clear -Hroom. induction Hroom as [|r c rs cs Hle _ IH]; [reflexivity|].
      cbn [zip_with]. rewrite IH. f_equal. lia. }
    eexists. split; [|split].
    + cbn [distribute_questions EvenDistributionStrategy].
      apply even_distribute_questions_ok; assumption.
    + exact Hcounts.
    + fold L base extra. rewrite Hcounts. exact Hsum.
Qed.

Lemma raw_counts_sum_to_allocation_witness :
  let levels := [lvl 1 2; lvl 2 100; lvl 3 0] in
  levels <> [] /\ 0 <= 8
  /\ sum (raw_counts (8 / 3) (8 mod 3) levels) = 8
  /\ 8 / 3 * 3 + 8 mod 3 = 8
  /\ exists recs : list LevelRecommendation.t,
       distribute_questions EvenDistributionStrategy levels 8 None = Ok recs
       /\ LevelRecommendation.count <$> recs
          = zip_with Z.min (raw_counts (8 / 3) (8 mod 3) levels)
              (LevelAvailability.count <$> levels).
Proof.
  intros levels.
  assert (Hne : levels <> []) by discriminate.
  assert (HA : 0 <= 8) by lia.
  split; [exact Hne|]. split; [exact HA|].
  destruct (raw_counts_sum_to_allocation levels 8 None Hne HA)
    as (Hsum & Hdiv & _ & _ & Hrun & _).
  split; [exact Hsum|]. split; [exact Hdiv|]. exact (Hrun eq_refl).
Defined.

(** C8. On every input (levels, allocation, optional topic progress) the
    progress-aware strategy returns exactly what the even strategy
    returns. *)
Theorem progress_aware_equals_even
    (levels : list LevelAvailability.t) (A : Z) (p : option TopicProgress.t) :
  distribute_questions ProgressAwareDistributionStrategy levels A p
  = distribute_questions EvenDistributionStrategy levels A p.
Proof. reflexivity. Qed.

(** ** The topic allocator *)

(** C2. With no topics the allocation is 0.  For T >= 1 and a non-empty
    sequence of N topics, the allocation of every topic, whatever its
    availability, is [T // N]; the allocations sum to [N * (T // N) <= T]
    and the difference to T is [T mod N]. *)
Theorem topic_allocation_floor
    (T : Z) (topics : list TopicAvailability.t) :
  (topics = [] ->
   forall current_topic : TopicAvailability.t,
     RecommendationService._calculate_topic_allocation current_topic T topics = Ok 0)
  /\
  (1 <= T -> topics <> [] ->
   let N := len topics in
   (forall current_topic : TopicAvailability.t,
      RecommendationService._calculate_topic_allocation current_topic T topics
      = Ok (T / N))
   /\ (forall (self : RecommendationService.t) (current_topic : TopicAvailability.t)
              (p : option TopicProgress.t),
         RecommendationService._recommend_for_topic self current_topic T p (Some topics)
         = (level_recommendations ←
              distribute_questions (RecommendationService.distribution_strategy self)
                (TopicAvailability.available current_topic) (T / N) p;
            Ok (TopicRecommendation.mk (TopicAvailability.topic current_topic)
                  level_recommendations)))
   /\ sum ((fun _ => T / N) <$> topics) = N * (T / N)
   /\ N * (T / N) <= T
   /\ T - N * (T / N) = T mod N).
Proof.
  split.
  - intros -> current_topic. reflexivity.
  - intros HT Hne N.
    pose proof (len_pos _ _ Hne) as HN. fold N in HN.
    pose proof (Z.div_mod T N) as Hdm.
    pose proof (Z.mod_pos_bound T N HN) as Hmod.
    split; [|split; [|split; [|split]]].
    + intros current_topic. apply calculate_topic_allocation_ok. assumption.
    + intros self current_topic p. unfold RecommendationService._recommend_for_topic.
      rewrite all_topics_or_nonempty, calculate_topic_allocation_ok by assumption.
      reflexivity.
    + apply sum_const.
    + lia.
    + lia.
Qed.

Lemma topic_allocation_floor_witness :
  let topics := RecommendationRequest.user_topics (request_two_topics 7) in
  1 <= 7 /\ topics <> []
  /\ (forall current_topic : TopicAvailability.t,
        RecommendationService._calculate_topic_allocation current_topic 7 topics = Ok 3)
  /\ sum ((fun _ => 7 / 2) <$> topics) = 2 * (7 / 2)
  /\ 7 - 2 * (7 / 2) = 7 mod 2.
Proof.
  intros topics.
  assert (HT : 1 <= 7) by lia.
  assert (Hne : topics <> []) by discriminate.
  split; [exact HT|]. split; [exact Hne|].
  destruct (proj2 (topic_allocation_floor 7 topics) HT Hne) as (Hall & _ & Hsum & _ & Hrem).
  split; [exact Hall|]. split; [exact Hsum | exact Hrem].
Defined.

(** ** The whole response *)

(** The shape of [recommend_topic], level by level. *)
Lemma recommend_topic_levels (total n : Z) (topic : TopicAvailability.t)
    (P : LevelAvailability.t -> LevelRecommendation.t -> Prop) :
  (forall (base extra : Z) (i : nat) (la : LevelAvailability.t),
     TopicAvailability.available topic !! i = Some la -> P la (clamped base extra i la)) ->
  Forall2 P (TopicAvailability.available topic)
    (TopicRecommendation.recommendations (recommend_topic total n topic)).
Proof.
  intros HP. unfold recommend_topic. cbn [TopicRecommendation.recommendations].
  apply Forall2_same_length_lookup. split.
  - rewrite length_imap. reflexivity.
  - intros i la lr Hla Hlr. rewrite list_lookup_imap, Hla in Hlr.
    cbn in Hlr. injection Hlr as <-. apply HP. assumption.
Qed.

Lemma response_topics (total n : Z) (topics : list TopicAvailability.t)
    (P : TopicAvailability.t -> TopicRecommendation.t -> Prop) :
  (forall topic : TopicAvailability.t, topic ∈ topics -> P topic (recommend_topic total n topic)) ->
  Forall2 P topics (recommend_topic total n <$> topics).
Proof.
  intros HP. apply Forall2_fmap_r, Forall_Forall2_diag, Forall_forall. exact HP.
Qed.

(** C3. For every well-formed request (the pydantic constraints: counts
    >= 0, total_questions >= 1) that passes validation, the service returns
    a response in which every recommended count is between 0 and the
    available count of the corresponding input level. *)
Theorem recommended_within_available (request : RecommendationRequest.t) :
  RecommendationRequest.valid request = true ->
  _validate_recommendation_request request = Ok tt ->
  exists response : RecommendationResponse.t,
    RecommendationService.generate_recommendations recommendation_service request
    = Ok response
    /\ Forall2
         (fun topic trec =>
            Forall2
              (fun la lr =>
                 0 <= LevelRecommendation.count lr <= LevelAvailability.count la)
              (TopicAvailability.available topic)
              (TopicRecommendation.recommendations trec))
         (RecommendationRequest.user_topics request)
         (RecommendationResponse.topics response).
Proof.
  intros Hvalid _. apply request_valid_inv in Hvalid as [HT Hcounts].
  eexists. split; [apply generate_recommendations_ok; [lia | assumption]|].
  cbn [RecommendationResponse.topics].
  set (T := RecommendationRequest.total_questions request) in *.
  set (topics := RecommendationRequest.user_topics request) in *.
  apply response_topics. intros topic Hin.
  assert (Htopic : forallb LevelAvailability.valid (TopicAvailability.available topic) = true).
  { rewrite forallb_forall in Hcounts. apply Hcounts, list_elem_of_In. assumption. }
  assert (Halloc : 0 <= T / len topics).
  { apply Z.div_pos; [lia|]. apply len_pos. intros E. rewrite E in Hin. inversion Hin. }
  unfold recommend_topic. cbn [TopicRecommendation.recommendations].
  set (A := T / len topics) in *.
  set (levels := TopicAvailability.available topic) in *.
  apply Forall2_same_length_lookup. split; [rewrite length_imap; reflexivity|].
  intros i la lr Hla Hlr. rewrite list_lookup_imap, Hla in Hlr.
  cbn in Hlr. injection Hlr as <-.
  rewrite forallb_forall in Htopic.
  assert (Hla' : 0 <= LevelAvailability.count la).
  { apply Z.leb_le, (Htopic la), list_elem_of_In, list_elem_of_lookup. eauto. }
  assert (Hbase : 0 <= A / len levels).
  { apply Z.div_pos; [assumption|]. apply len_pos. intros E. rewrite E in Hla. discriminate. }
  pose proof (questions_for_level_lower (A / len levels) (A mod len levels) (Z.of_nat i)).
  unfold clamped. cbn [LevelRecommendation.count]. lia.
Qed.

Lemma recommended_within_available_witness :
  let request := request_two_topics 7 in
  RecommendationRequest.valid request = true
  /\ _validate_recommendation_request request = Ok tt
  /\ exists response : RecommendationResponse.t,
       RecommendationService.generate_recommendations recommendation_service request
       = Ok response
       /\ Forall2
            (fun topic trec =>
               Forall2
                 (fun la lr =>
                    0 <= LevelRecommendation.count lr <= LevelAvailability.count la)
                 (TopicAvailability.available topic)
                 (TopicRecommendation.recommendations trec))
            (RecommendationRequest.user_topics request)
            (RecommendationResponse.topics response).
Proof.
  intros request.
  assert (Hvalid : RecommendationRequest.valid request = true) by reflexivity.
  assert (Hpass : _validate_recommendation_request request = Ok tt) by reflexivity.
  split; [exact Hvalid|]. split; [exact Hpass|].
  exact (recommended_within_available request Hvalid Hpass).
Defined.

(** C6. For every well-formed request that passes validation, the response
    has exactly one [TopicRecommendation] per input topic, in input order
    and under the topic's name, and each of them has exactly one
    [LevelRecommendation] per input level of that topic, in input order and
    under the level's identifier. *)
Theorem response_preserves_structure (request : RecommendationRequest.t) :
  RecommendationRequest.valid request = true ->
  _validate_recommendation_request request = Ok tt ->
  exists response : RecommendationResponse.t,
    RecommendationService.generate_recommendations recommendation_service request
    = Ok response
    /\ length (RecommendationResponse.topics response)
       = length (RecommendationRequest.user_topics request)
    /\ Forall2
         (fun topic trec =>
            TopicRecommendation.name trec = TopicAvailability.topic topic
            /\ length (TopicRecommendation.recommendations trec)
               = length (TopicAvailability.available topic)
            /\ Forall2
                 (fun la lr => LevelRecommendation.level lr = LevelAvailability.level la)
                 (TopicAvailability.available topic)
                 (TopicRecommendation.recommendations trec))
         (RecommendationRequest.user_topics request)
         (RecommendationResponse.topics response).
Proof.
  intros Hvalid _. apply request_valid_inv in Hvalid as [HT Hcounts].
  eexists. split; [apply generate_recommendations_ok; [lia | assumption]|].
  cbn [RecommendationResponse.topics]. split; [apply length_fmap|].
  apply response_topics. intros topic _. split; [reflexivity|]. split.
  - unfold recommend_topic. cbn [TopicRecommendation.recommendations]. apply length_imap.
  - apply recommend_topic_levels. intros base extra i la _. reflexivity.
Qed.

Lemma response_preserves_structure_witness :
  let request := request_two_topics 7 in
  RecommendationRequest.valid request = true
  /\ _validate_recommendation_request request = Ok tt
  /\ exists response : RecommendationResponse.t,
       RecommendationService.generate_recommendations recommendation_service request
       = Ok response
       /\ length (RecommendationResponse.topics response)
          = length (RecommendationRequest.user_topics request).
Proof.
  intros request.
  assert (Hvalid : RecommendationRequest.valid request = true) by reflexivity.
  assert (Hpass : _validate_recommendation_request request = Ok tt) by reflexivity.
  split; [exact Hvalid|]. split; [exact Hpass|].
  destruct (response_preserves_structure request Hvalid Hpass) as (response & Hgen & Hlen & _).
  exists response. split; [exact Hgen | exact Hlen].
Defined.

(** C9. For every well-formed request that passes validation, each topic's
    recommended total is at most its allocation [T // N], the allocations
    sum to at most T, and so the response's overall [total_recommended] is
    at most [total_questions]. *)
Theorem total_recommended_at_most_total_questions (request : RecommendationRequest.t) :
  RecommendationRequest.valid request = true ->
  _validate_recommendation_request request = Ok tt ->
  let T := RecommendationRequest.total_questions request in
  let N := len (RecommendationRequest.user_topics request) in
  exists response : RecommendationResponse.t,
    RecommendationService.generate_recommendations recommendation_service request
    = Ok response
    /\ Forall (fun trec => TopicRecommendation.total_recommended trec <= T / N)
         (RecommendationResponse.topics response)
    /\ N * (T / N) <= T
    /\ RecommendationResponse.total_recommended response <= T.
Proof.
  intros Hvalid Hpass T N. apply request_valid_inv in Hvalid as [HT Hcounts].
  assert (HN : 0 < N).
  { apply len_pos. intros E. unfold _validate_recommendation_request in Hpass.
    rewrite E in Hpass. discriminate. }
  assert (Halloc : 0 <= T / N) by (apply Z.div_pos; lia).
  assert (Hfloor : N * (T / N) <= T).
  { pose proof (Z.div_mod T N). pose proof (Z.mod_pos_bound T N HN). lia. }
  assert (Heach : Forall (fun trec => TopicRecommendation.total_recommended trec <= T / N)
                    (recommend_topic T N <$> RecommendationRequest.user_topics request)).
  { apply Forall_fmap, Forall_forall. intros topic _. cbn.
    apply topic_total_le_allocation. assumption. }
  eexists. split; [apply generate_recommendations_ok; [lia | assumption]|].
  cbn [RecommendationResponse.topics]. fold T N.
  split; [exact Heach|]. split; [exact Hfloor|].
  unfold RecommendationResponse.total_recommended. cbn [RecommendationResponse.topics].
  etransitivity; [|exact Hfloor].
  etransitivity; [apply sum_le_const with (c := T / N)|].
  - apply Forall_fmap. exact Heach.
  - unfold len. rewrite !length_fmap. fold (len (RecommendationRequest.user_topics request)).
    fold N. lia.
Qed.

Lemma total_recommended_at_most_total_questions_witness :
  let request := request_two_topics 7 in
  RecommendationRequest.valid request = true
  /\ _validate_recommendation_request request = Ok tt
  /\ exists response : RecommendationResponse.t,
       RecommendationService.generate_recommendations recommendation_service request
       = Ok response
       /\ RecommendationResponse.total_recommended response <= 7.
Proof.
  intros request.
  assert (Hvalid : RecommendationRequest.valid request = true) by reflexivity.
  assert (Hpass : _validate_recommendation_request request = Ok tt) by reflexivity.
  split; [exact Hvalid|]. split; [exact Hpass|].
  destruct (total_recommended_at_most_total_questions request Hvalid Hpass)
    as (response & Hgen & _ & _ & Htotal).
  exists response. split; [exact Hgen | exact Htotal].
Defined.

(** ** Absence of exceptions *)

(** C10. For every request with a non-empty topic list, total_questions >= 1,
    a non-empty level list in every topic and every level count >= 0,
    [generate_recommendations] returns a response: the division by the topic
    count succeeds, the division by the level count succeeds, and every
    [LevelRecommendation] is built with a count >= 0. *)
Theorem generate_recommendations_never_raises (request : RecommendationRequest.t) :
  let T := RecommendationRequest.total_questions request in
  let topics := RecommendationRequest.user_topics request in
  topics <> [] ->
  1 <= T ->
  Forall (fun topic => TopicAvailability.available topic <> []) topics ->
  forallb TopicAvailability.valid topics = true ->
  (forall current_topic : TopicAvailability.t,
     exists allocation : Z,
       RecommendationService._calculate_topic_allocation current_topic T topics
       = Ok allocation
       /\ 0 <= allocation)
  /\ (forall (topic : TopicAvailability.t) (allocation : Z) (p : option TopicProgress.t),
        topic ∈ topics -> 0 <= allocation ->
        exists recs : list LevelRecommendation.t,
          distribute_questions EvenDistributionStrategy
            (TopicAvailability.available topic) allocation p = Ok recs
          /\ Forall (fun lr => 0 <= LevelRecommendation.count lr) recs)
  /\ exists response : RecommendationResponse.t,
       RecommendationService.generate_recommendations recommendation_service request
       = Ok response.
Proof.
  intros T topics Hne HT _ Hcounts. split; [|split].
  - intros current_topic. exists (T / len topics). split.
    + apply calculate_topic_allocation_ok. assumption.
    + apply Z.div_pos; [lia | apply len_pos; assumption].
  - intros topic allocation p Hin Halloc.
    assert (Htopic : forallb LevelAvailability.valid (TopicAvailability.available topic) = true).
    { rewrite forallb_forall in Hcounts. apply Hcounts, list_elem_of_In. assumption. }
    eexists. split.
    + cbn [distribute_questions EvenDistributionStrategy].
      apply even_distribute_questions_ok; assumption.
    + apply Forall_lookup. intros i lr Hlr.
      rewrite list_lookup_imap in Hlr.
      destruct (TopicAvailability.available topic !! i) as [la|] eqn:Hla; [|discriminate].
      cbn in Hlr. injection Hlr as <-.
      rewrite forallb_forall in Htopic.
      assert (Hla' : 0 <= LevelAvailability.count la).
      { apply Z.leb_le, (Htopic la), list_elem_of_In, list_elem_of_lookup. eauto. }
      set (levels := TopicAvailability.available topic) in *.
      assert (Hbase : 0 <= allocation / len levels).
      { apply Z.div_pos; [assumption|]. apply len_pos. intros E. rewrite E in Hla. discriminate. }
      pose proof (questions_for_level_lower (allocation / len levels)
                    (allocation mod len levels) (Z.of_nat i)).
      unfold clamped. cbn [LevelRecommendation.count]. lia.
  - eexists. apply generate_recommendations_ok; [fold T; lia | assumption].
Qed.

Lemma generate_recommendations_never_raises_witness :
  let request := request_two_topics 1 in
  RecommendationRequest.user_topics request <> []
  /\ 1 <= RecommendationRequest.total_questions request
  /\ Forall (fun topic => TopicAvailability.available topic <> [])
        (RecommendationRequest.user_topics request)
  /\ forallb TopicAvailability.valid (RecommendationRequest.user_topics request) = true
  /\ exists response : RecommendationResponse.t,
       RecommendationService.generate_recommendations recommendation_service request
       = Ok response.
Proof.
  intros request.
  assert (Hne : RecommendationRequest.user_topics request <> []) by discriminate.
  assert (HT : 1 <= RecommendationRequest.total_questions request) by (simpl; lia).
  assert (Hlevels : Forall (fun topic => TopicAvailability.available topic <> [])
                      (RecommendationRequest.user_topics request)).
  { simpl. repeat constructor; discriminate. }
  assert (Hcounts : forallb TopicAvailability.valid
                      (RecommendationRequest.user_topics request) = true) by reflexivity.
  split; [exact Hne|]. split; [exact HT|]. split; [exact Hlevels|]. split; [exact Hcounts|].
  exact (proj2 (proj2 (generate_recommendations_never_raises request Hne HT Hlevels Hcounts))).
Defined.

(** ** Progress data *)

Lemma recommend_for_topic_ignores_progress
    (topic : TopicAvailability.t) (total : Z) (p1 p2 : option TopicProgress.t)
    (all_topics : option (list TopicAvailability.t)) :
  RecommendationService._recommend_for_topic recommendation_service topic total p1 all_topics
  = RecommendationService._recommend_for_topic recommendation_service topic total p2 all_topics.
Proof. reflexivity. Qed.

Lemma generate_loop_ignores_progress
    (request1 request2 : RecommendationRequest.t)
    (lookup1 lookup2 : gmap string TopicProgress.t) :
  RecommendationRequest.total_questions request1
  = RecommendationRequest.total_questions request2 ->
  RecommendationRequest.user_topics request1
  = RecommendationRequest.user_topics request2 ->
  forall (topics : list TopicAvailability.t) (acc : list TopicRecommendation.t),
    RecommendationService.generate_loop recommendation_service request1 lookup1 topics acc
    = RecommendationService.generate_loop recommendation_service request2 lookup2 topics acc.
Proof.
  intros Htotal Htopics. induction topics as [|topic topics IH]; intros acc.
  - reflexivity.
  - cbn [RecommendationService.generate_loop]. rewrite Htotal, Htopics.
    rewrite (recommend_for_topic_ignores_progress topic _
               (lookup1 !! TopicAvailability.topic topic)
               (lookup2 !! TopicAvailability.topic topic)).
    destruct (RecommendationService._recommend_for_topic _ _ _ _ _) as [r|e];
      cbn [mbind result_bind]; [apply IH | reflexivity].
Qed.

(** C5. Two requests that differ only in their [user_progress] field get the
    same outcome from validation, the same result from
    [generate_recommendations] and the same answer from the endpoint: the
    progress data has no influence on the output. *)
Theorem progress_never_influences_output
    (user_id total_questions : Z) (user_topics : list TopicAvailability.t)
    (progress1 progress2 : list TopicProgress.t)
    (str_ValidationError : string -> string -> Z -> string)
    (int_max_str_digits : Z) :
  let request1 := RecommendationRequest.mk user_id total_questions user_topics progress1 in
  let request2 := RecommendationRequest.mk user_id total_questions user_topics progress2 in
  _validate_recommendation_request request1 = _validate_recommendation_request request2
  /\ RecommendationService.generate_recommendations recommendation_service request1
     = RecommendationService.generate_recommendations recommendation_service request2
  /\ recommend_questions str_ValidationError int_max_str_digits
       recommendation_service request1
     = recommend_questions str_ValidationError int_max_str_digits
         recommendation_service request2.
Proof.
  intros request1 request2.
  assert (Hgen : RecommendationService.generate_recommendations recommendation_service request1
                 = RecommendationService.generate_recommendations recommendation_service request2).
  { unfold RecommendationService.generate_recommendations.
    rewrite (generate_loop_ignores_progress request1 request2
               (RecommendationService._create_progress_lookup
                  (RecommendationRequest.user_progress request1))
               (RecommendationService._create_progress_lookup
                  (RecommendationRequest.user_progress request2)))
      by reflexivity.
    reflexivity. }
  split; [reflexivity|]. split; [exact Hgen|].
  unfold recommend_questions. rewrite Hgen. reflexivity.
Qed.

(** ** Validation *)

Lemma validate_raises_ValueError (request : RecommendationRequest.t) (e : exn) :
  _validate_recommendation_request request = Raise e ->
  exists message : string, e = ValueError message.
Proof.
  unfold _validate_recommendation_request.
  destruct (RecommendationRequest.user_topics request) as [|t ts]; [intros [= <-]; eauto|].
  destruct (_ <=? 0); [intros [= <-]; eauto|].
  generalize (t :: ts). intros topics. induction topics as [|topic topics IH]; [discriminate|].
  cbn [validate_topics].
  destruct (TopicAvailability.available topic); [intros [= <-]; eauto|].
  destruct (_ =? 0); [intros [= <-]; eauto | exact IH].
Qed.

(** C4. Validation rejects a request exactly when [user_topics] is empty, or
    [total_questions <= 0], or some topic has no levels, or some topic's
    counts sum to 0.  It raises for the first failing rule, in the order
    topics-empty, total-questions, then the topics in input order with the
    empty-levels check before the zero-inventory check; the messages of the
    four rules are pairwise distinct; and when validation raises, the
    handler's outcome is the same whatever the service is, so nothing of the
    allocation is used: it is status 400 with that message, provided the
    integers the handler logs (user id, total_questions, number of topics)
    are within the interpreter's limit on integer to string conversion. *)
Theorem validation_rejects_first_failing_rule (request : RecommendationRequest.t) :
  let topics := RecommendationRequest.user_topics request in
  let T := RecommendationRequest.total_questions request in
  ((exists e : exn, _validate_recommendation_request request = Raise e)
   <-> (topics = [] \/ T <= 0
        \/ Exists (fun topic => TopicAvailability.available topic = []) topics
        \/ Exists (fun topic => total_available topic = 0) topics))
  /\ (_validate_recommendation_request request = Ok tt
      <-> (topics <> [] /\ 0 < T /\ Forall topic_passes topics))
  /\ (topics = [] ->
      _validate_recommendation_request request = Raise (ValueError msg_no_topics))
  /\ (topics <> [] -> T <= 0 ->
      _validate_recommendation_request request = Raise (ValueError msg_total_questions))
  /\ (forall (pre : list TopicAvailability.t) (topic : TopicAvailability.t)
             (post : list TopicAvailability.t),
        topics = pre ++ topic :: post -> 0 < T -> Forall topic_passes pre ->
        TopicAvailability.available topic = [] ->
        _validate_recommendation_request request
        = Raise (ValueError (msg_no_levels (TopicAvailability.topic topic))))
  /\ (forall (pre : list TopicAvailability.t) (topic : TopicAvailability.t)
             (post : list TopicAvailability.t),
        topics = pre ++ topic :: post -> 0 < T -> Forall topic_passes pre ->
        TopicAvailability.available topic <> [] -> total_available topic = 0 ->
        _validate_recommendation_request request
        = Raise (ValueError (msg_no_questions (TopicAvailability.topic topic))))
  /\ (forall a b : string,
        msg_no_topics <> msg_total_questions
        /\ msg_no_topics <> msg_no_levels a
        /\ msg_no_topics <> msg_no_questions a
        /\ msg_total_questions <> msg_no_levels a
        /\ msg_total_questions <> msg_no_questions a
        /\ msg_no_levels a <> msg_no_questions b)
  /\ (forall e : exn,
        _validate_recommendation_request request = Raise e ->
        exists message : string,
          e = ValueError message
          /\ forall (str_ValidationError : string -> string -> Z -> string)
                    (int_max_str_digits : Z),
               (forall service service' : RecommendationService.t,
                  recommend_questions str_ValidationError int_max_str_digits
                    service request
                  = recommend_questions str_ValidationError int_max_str_digits
                      service' request)
               /\ (loggable int_max_str_digits request = true ->
                   forall service : RecommendationService.t,
                     recommend_questions str_ValidationError int_max_str_digits
                       service request
                     = RaisesHTTP (mkHTTPException 400 message))).
Proof.
  intros topics T.
  assert (Htail : forall pre topic post,
            topics = pre ++ topic :: post -> 0 < T -> Forall topic_passes pre ->
            _validate_recommendation_request request = validate_topics (topic :: post)).
  { intros pre topic post Htopics HT Hpre. unfold _validate_recommendation_request.
    fold topics T. rewrite Htopics.
    destruct (pre ++ topic :: post) as [|x xs] eqn:E; [destruct pre; discriminate|].
    destruct (Z.leb_spec T 0); [lia|].
    rewrite <- E. apply validate_topics_first_failure. assumption. }
  split; [|split; [|split; [|split; [|split; [|split; [|split]]]]]].
  - unfold _validate_recommendation_request. fold topics T.
    destruct topics as [|t ts] eqn:Htopics.
    { split; [intros _; left; reflexivity | eauto]. }
    destruct (Z.leb_spec T 0) as [HT|HT].
    { split; [intros _; right; left; assumption | eauto]. }
    rewrite validate_topics_raises. split.
    + intros H. right. right. right. assumption.
    + intros [H|[H|[H|H]]]; [discriminate | lia | | assumption].
      eapply Exists_impl; [exact H|]. intros topic Hav. cbn in Hav.
      unfold total_available. rewrite Hav. reflexivity.
  - unfold _validate_recommendation_request. fold topics T.
    destruct topics as [|t ts] eqn:Htopics.
    { split; [discriminate | intros [H _]; congruence]. }
    destruct (Z.leb_spec T 0) as [HT|HT].
    { split; [discriminate | intros (_ & H & _); lia]. }
    rewrite validate_topics_ok. split.
    + intros H. split; [discriminate|]. split; assumption.
    + intros (_ & _ & H). assumption.
  - intros Htopics. unfold _validate_recommendation_request. fold topics.
    rewrite Htopics. reflexivity.
  - intros Hne HT. unfold _validate_recommendation_request. fold topics T.
    destruct topics; [congruence|].
    destruct (Z.leb_spec T 0); [reflexivity | lia].
  - intros pre topic post Htopics HT Hpre Hav.
    rewrite (Htail pre topic post) by assumption.
    cbn [validate_topics]. rewrite Hav. reflexivity.
  - intros pre topic post Htopics HT Hpre Hav Hzero.
    rewrite (Htail pre topic post) by assumption.
    cbn [validate_topics].
    destruct (TopicAvailability.available topic); [congruence|].
    rewrite Hzero. reflexivity.
  - apply messages_distinct.
  - intros e He. destruct (validate_raises_ValueError request e He) as [message ->].
    exists message. split; [reflexivity|].
    intros str_ValidationError int_max_str_digits. split.
    + intros service service'.
      apply recommend_questions_before_service with (e := ValueError message). exact He.
    + intros Hlog service. apply recommend_questions_rejected; assumption.
Qed.

Definition request_no_inventory : RecommendationRequest.t :=
  RecommendationRequest.mk 1 5
    [TopicAvailability.mk "A" [lvl 1 10]; TopicAvailability.mk "B" [lvl 1 0; lvl 2 0];
     TopicAvailability.mk "C" []] [].

Lemma validation_rejects_first_failing_rule_witness :
  let request := request_no_inventory in
  let pre := [TopicAvailability.mk "A" [lvl 1 10]] in
  let topic := TopicAvailability.mk "B" [lvl 1 0; lvl 2 0] in
  let post := [TopicAvailability.mk "C" []] in
  RecommendationRequest.user_topics request = pre ++ topic :: post
  /\ 0 < RecommendationRequest.total_questions request
  /\ Forall topic_passes pre
  /\ TopicAvailability.available topic <> []
  /\ total_available topic = 0
  /\ _validate_recommendation_request request
     = Raise (ValueError "Topic 'B' has no available questions").
Proof.
  intros request pre topic post.
  assert (Htopics : RecommendationRequest.user_topics request = pre ++ topic :: post)
    by reflexivity.
  assert (HT : 0 < RecommendationRequest.total_questions request) by (simpl; lia).
  assert (Hpre : Forall topic_passes pre).
  { repeat constructor; [discriminate | vm_compute; discriminate]. }
  assert (Hav : TopicAvailability.available topic <> []) by discriminate.
  assert (Hzero : total_available topic = 0) by reflexivity.
  split; [exact Htopics|]. split; [exact HT|]. split; [exact Hpre|].
  split; [exact Hav|]. split; [exact Hzero|].
  destruct (validation_rejects_first_failing_rule request)
    as (_ & _ & _ & _ & _ & Hrule & _).
  exact (Hrule pre topic post Htopics HT Hpre Hav Hzero).
Defined.


(** * Further properties of the code *)

(** ** The even distribution: exactness, saturation, monotonicity, errors *)

(** The raw count of the level at index [i] is the ceiling of
    [(A - i) / L]. *)
Lemma questions_for_level_closed (A L i : Z) :
  0 < L -> 0 <= i < L ->
  questions_for_level (A / L) (A mod L) i = (A + L - 1 - i) / L.
Proof.
  intros HL Hi. pose proof (Z.div_mod A L) as Hdm.
  pose proof (Z.mod_pos_bound A L HL) as Hmod.
  unfold questions_for_level.
  destruct (Z.ltb_spec i (A mod L)) as [Hlt|Hge].
  - apply Z.div_unique with (r := A mod L - 1 - i); lia.
  - apply Z.div_unique with (r := A mod L + L - 1 - i); lia.
Qed.

Lemma questions_for_level_le_ceiling (A L i : Z) :
  0 < L -> 0 <= i ->
  questions_for_level (A / L) (A mod L) i <= (A + L - 1) / L.
Proof.
  intros HL Hi. pose proof (Z.div_mod A L) as Hdm.
  pose proof (Z.mod_pos_bound A L HL) as Hmod.
  apply Z.div_le_lower_bound; [assumption|].
  unfold questions_for_level. destruct (Z.ltb_spec i (A mod L)); lia.
Qed.

Lemma lookup_index_bound (A : Type) (l : list A) (i : nat) (x : A) :
  l !! i = Some x -> 0 <= Z.of_nat i < len l.
Proof. intros H. apply lookup_lt_Some in H. unfold len. lia. Qed.

Lemma forallb_valid_lookup (levels : list LevelAvailability.t) (i : nat)
    (la : LevelAvailability.t) :
  forallb LevelAvailability.valid levels = true ->
  levels !! i = Some la -> 0 <= LevelAvailability.count la.
Proof.
  intros Hvalid Hla. rewrite forallb_forall in Hvalid.
  apply Z.leb_le, (Hvalid la), list_elem_of_In, list_elem_of_lookup. eauto.
Qed.

Lemma forallb_valid_of_lower_bound (c : Z) (levels : list LevelAvailability.t) :
  0 <= c ->
  Forall (fun la => c <= LevelAvailability.count la) levels ->
  forallb LevelAvailability.valid levels = true.
Proof.
  intros Hc H. apply forallb_forall. intros la Hin.
  rewrite Forall_forall in H. apply list_elem_of_In, H in Hin.
  apply Z.leb_le. lia.
Qed.

(** When every level holds at least the ceiling of [A / L] questions, no
    count is clamped: each level receives its raw count and the
    recommendations of the topic add up to the allocation exactly. *)
Theorem distribution_exact_without_clamping
    (levels : list LevelAvailability.t) (A : Z) (p : option TopicProgress.t) :
  levels <> [] -> 0 <= A ->
  Forall (fun la => (A + len levels - 1) / len levels <= LevelAvailability.count la) levels ->
  exists recs : list LevelRecommendation.t,
    distribute_questions EvenDistributionStrategy levels A p = Ok recs
    /\ LevelRecommendation.count <$> recs
       = raw_counts (A / len levels) (A mod len levels) levels
    /\ sum (LevelRecommendation.count <$> recs) = A.
Proof.
  intros Hne HA Hroom. pose proof (len_pos _ _ Hne) as HL.
  assert (Hceil : 0 <= (A + len levels - 1) / len levels) by (apply Z.div_pos; lia).
  assert (Hvalid : forallb LevelAvailability.valid levels = true)
    by (eapply forallb_valid_of_lower_bound; eassumption).
  assert (Hraw : LevelRecommendation.count
                   <$> imap (clamped (A / len levels) (A mod len levels)) levels
                 = raw_counts (A / len levels) (A mod len levels) levels).
  { unfold raw_counts. apply list_eq. intros i.
    rewrite list_lookup_fmap, !list_lookup_imap.
    destruct (levels !! i) as [la|] eqn:Hla; [|reflexivity].
    cbn. f_equal. apply Z.min_l.
    pose proof (lookup_index_bound _ _ _ _ Hla) as Hi.
    rewrite Forall_lookup in Hroom. specialize (Hroom i la Hla). cbn in Hroom.
    pose proof (questions_for_level_le_ceiling A (len levels) (Z.of_nat i) HL).
    lia. }
  eexists. split; [|split].
  - cbn [distribute_questions EvenDistributionStrategy].
    apply even_distribute_questions_ok; assumption.
  - exact Hraw.
  - rewrite Hraw. apply sum_raw_counts_exact. assumption.
Qed.

Lemma distribution_exact_without_clamping_witness :
  let levels := [lvl 1 4; lvl 2 3; lvl 3 5] in
  levels <> [] /\ 0 <= 8
  /\ exists recs : list LevelRecommendation.t,
       distribute_questions EvenDistributionStrategy levels 8 None = Ok recs
       /\ sum (LevelRecommendation.count <$> recs) = 8.
Proof.
  intros levels.
  assert (Hne : levels <> []) by discriminate.
  assert (HA : 0 <= 8) by lia.
  assert (Hroom : Forall (fun la => (8 + len levels - 1) / len levels
                                    <= LevelAvailability.count la) levels).
  { repeat constructor; vm_compute; discriminate. }
  split; [exact Hne|]. split; [exact HA|].
  destruct (distribution_exact_without_clamping levels 8 None Hne HA Hroom)
    as (recs & Hrun & _ & Hsum).
  exists recs. split; [exact Hrun | exact Hsum].
Defined.

(** When no level holds more than [A // L] questions, every level is
    recommended in full: the output repeats the available counts. *)
Theorem distribution_saturates_small_levels
    (levels : list LevelAvailability.t) (A : Z) (p : option TopicProgress.t) :
  levels <> [] -> 0 <= A ->
  forallb LevelAvailability.valid levels = true ->
  Forall (fun la => LevelAvailability.count la <= A / len levels) levels ->
  distribute_questions EvenDistributionStrategy levels A p
  = Ok ((fun la => LevelRecommendation.mk (LevelAvailability.level la)
                     (LevelAvailability.count la)) <$> levels).
Proof.
  intros Hne HA Hvalid Hsmall.
  cbn [distribute_questions EvenDistributionStrategy].
  rewrite even_distribute_questions_ok by assumption. f_equal.
  apply list_eq. intros i. rewrite list_lookup_imap, list_lookup_fmap.
  destruct (levels !! i) as [la|] eqn:Hla; [|reflexivity].
  cbn. unfold clamped. do 2 f_equal. apply Z.min_r.
  rewrite Forall_lookup in Hsmall. specialize (Hsmall i la Hla). cbn in Hsmall.
  pose proof (questions_for_level_lower (A / len levels) (A mod len levels) (Z.of_nat i)).
  lia.
Qed.

Lemma distribution_saturates_small_levels_witness :
  let levels := [lvl 1 2; lvl 2 0; lvl 3 3] in
  levels <> [] /\ 0 <= 10
  /\ distribute_questions EvenDistributionStrategy levels 10 None
     = Ok [rec_ 1 2; rec_ 2 0; rec_ 3 3].
Proof.
  intros levels.
  assert (Hne : levels <> []) by discriminate.
  assert (HA : 0 <= 10) by lia.
  assert (Hvalid : forallb LevelAvailability.valid levels = true) by reflexivity.
  assert (Hsmall : Forall (fun la => LevelAvailability.count la <= 10 / len levels) levels).
  { repeat constructor; vm_compute; discriminate. }
  split; [exact Hne|]. split; [exact HA|].
  exact (distribution_saturates_small_levels levels 10 None Hne HA Hvalid Hsmall).
Defined.

(** A larger allocation never lowers the recommendation of any level. *)
Theorem distribution_monotone_in_allocation
    (levels : list LevelAvailability.t) (A A' : Z) (p p' : option TopicProgress.t) :
  0 <= A -> A <= A' ->
  forallb LevelAvailability.valid levels = true ->
  exists recs recs' : list LevelRecommendation.t,
    distribute_questions EvenDistributionStrategy levels A p = Ok recs
    /\ distribute_questions EvenDistributionStrategy levels A' p' = Ok recs'
    /\ Forall2 (fun r r' =>
                  LevelRecommendation.level r = LevelRecommendation.level r'
                  /\ LevelRecommendation.count r <= LevelRecommendation.count r')
         recs recs'.
Proof.
  intros HA HAA' Hvalid. do 2 eexists. split; [|split].
  - cbn [distribute_questions EvenDistributionStrategy].
    apply even_distribute_questions_ok; assumption.
  - cbn [distribute_questions EvenDistributionStrategy].
    apply even_distribute_questions_ok; [lia | assumption].
  - apply Forall2_same_length_lookup. split; [rewrite !length_imap; reflexivity|].
    intros i r r' Hr Hr'. rewrite list_lookup_imap in Hr, Hr'.
    destruct (levels !! i) as [la|] eqn:Hla; [|discriminate].
    cbn in Hr, Hr'. injection Hr as <-. injection Hr' as <-.
    split; [reflexivity|]. unfold clamped. cbn [LevelRecommendation.count].
    pose proof (lookup_index_bound _ _ _ _ Hla) as Hi.
    assert (HL : 0 < len levels) by lia.
    rewrite !questions_for_level_closed by assumption.
    assert ((A + len levels - 1 - Z.of_nat i) / len levels
            <= (A' + len levels - 1 - Z.of_nat i) / len levels)
      by (apply Z.div_le_mono; lia).
    lia.
Qed.

Lemma distribution_monotone_in_allocation_witness :
  let levels := [lvl 1 2; lvl 2 100] in
  0 <= 3 /\ 3 <= 5
  /\ exists recs recs' : list LevelRecommendation.t,
       distribute_questions EvenDistributionStrategy levels 3 None = Ok recs
       /\ distribute_questions EvenDistributionStrategy levels 5 None = Ok recs'
       /\ Forall2 (fun r r' =>
                     LevelRecommendation.level r = LevelRecommendation.level r'
                     /\ LevelRecommendation.count r <= LevelRecommendation.count r')
            recs recs'.
Proof.
  intros levels.
  assert (HA : 0 <= 3) by lia.
  assert (HAA' : 3 <= 5) by lia.
  assert (Hvalid : forallb LevelAvailability.valid levels = true) by reflexivity.
  split; [exact HA|]. split; [exact HAA'|].
  exact (distribution_monotone_in_allocation levels 3 5 None None HA HAA' Hvalid).
Defined.

(** The loop raises as soon as a clamped count is negative. *)
Lemma even_distribution_loop_raises (base extra : Z) (levels : list LevelAvailability.t) :
  forall (k : nat) (acc : list LevelRecommendation.t),
    (exists (j : nat) (la : LevelAvailability.t),
       levels !! j = Some la
       /\ Z.min (questions_for_level base extra (Z.of_nat (k + j)))
                (LevelAvailability.count la) < 0) ->
    exists value : Z,
      even_distribution_loop base extra (Z.of_nat k) levels acc
      = Raise (ValidationError "LevelRecommendation" "count" value)
      /\ value < 0.
Proof.
  induction levels as [|la levels IH]; intros k acc (j & x & Hj & Hneg).
  - discriminate.
  - cbn [even_distribution_loop]. unfold LevelRecommendation.new.
    destruct (Z.leb_spec 0 (Z.min (questions_for_level base extra (Z.of_nat k))
                                  (LevelAvailability.count la))) as [Hok|Hbad].
    + cbn [mbind result_bind].
      replace (Z.of_nat k + 1) with (Z.of_nat (S k)) by lia.
      apply IH. destruct j as [|j].
      * cbn in Hj. injection Hj as <-. rewrite Nat.add_0_r in Hneg. lia.
      * exists j, x. split; [exact Hj|].
        replace (S k + j)%nat with (k + S j)%nat by lia. assumption.
    + eexists. split; [reflexivity | assumption].
Qed.

(** A negative allocation cannot be distributed over a non-empty level
    list: whatever the available counts, building a [LevelRecommendation]
    fails with pydantic's [ValidationError] on a negative count. *)
Theorem distribution_of_negative_allocation_raises
    (levels : list LevelAvailability.t) (A : Z) (p : option TopicProgress.t) :
  levels <> [] -> A < 0 ->
  exists value : Z,
    distribute_questions EvenDistributionStrategy levels A p
    = Raise (ValidationError "LevelRecommendation" "count" value)
    /\ value < 0.
Proof.
  intros Hne HA. pose proof (len_pos _ _ Hne) as HL.
  cbn [distribute_questions EvenDistributionStrategy]. unfold even_distribute_questions.
  destruct levels as [|la0 levels0] eqn:Hlevels; [congruence|]. rewrite <- Hlevels in *.
  unfold py_floordiv, py_mod.
  destruct (Z.eqb_spec (len levels) 0) as [H0|_]; [lia|].
  cbn [mbind result_bind]. change 0 with (Z.of_nat 0) at 1.
  apply even_distribution_loop_raises.
  destruct (levels !! (length levels - 1)%nat) as [la|] eqn:Hlast.
  2:{ apply lookup_ge_None in Hlast. unfold len in HL. lia. }
  exists (length levels - 1)%nat, la. split; [exact Hlast|].
  cbn [Nat.add]. pose proof (Z.mod_pos_bound A (len levels) HL) as Hmod.
  assert (Hbase : A / len levels < 0) by (apply Z.div_lt_upper_bound; lia).
  unfold questions_for_level, len in *.
  destruct (Z.ltb_spec (Z.of_nat (length levels - 1)) (A mod Z.of_nat (length levels))); lia.
Qed.

Lemma distribution_of_negative_allocation_raises_witness :
  let levels := [lvl 1 2; lvl 2 100] in
  levels <> [] /\ -1 < 0
  /\ exists value : Z,
       distribute_questions EvenDistributionStrategy levels (-1) None
       = Raise (ValidationError "LevelRecommendation" "count" value)
       /\ value < 0.
Proof.
  intros levels.
  assert (Hne : levels <> []) by discriminate.
  assert (HA : -1 < 0) by lia.
  split; [exact Hne|]. split; [exact HA|].
  exact (distribution_of_negative_allocation_raises levels (-1) None Hne HA).
Defined.

(** ** The progress lookups *)

(** [_create_progress_lookup] keeps, for every topic name, the last entry of
    [user_progress] with that name; a name that no entry carries is
    missing from the lookup (and only such a name is). *)
Theorem progress_lookup_last_entry_wins
    (user_progress : list TopicProgress.t) (name : string) :
  RecommendationService._create_progress_lookup user_progress !! name
  = last (filter (fun progress => TopicProgress.topic progress = name) user_progress)
  /\ (RecommendationService._create_progress_lookup user_progress !! name = None
      <-> Forall (fun progress => TopicProgress.topic progress <> name) user_progress).
Proof.
  assert (Hlast :
    RecommendationService._create_progress_lookup user_progress !! name
    = last (filter (fun progress => TopicProgress.topic progress = name) user_progress)).
  { unfold RecommendationService._create_progress_lookup.
    induction user_progress as [|progress ps IH] using rev_ind.
    - reflexivity.
    - rewrite foldl_snoc, filter_app.
      destruct (decide (TopicProgress.topic progress = name)) as [Heq|Hne].
      + rewrite Heq, lookup_insert_eq.
        rewrite (filter_cons_True _ progress []) by assumption.
        rewrite filter_nil, last_snoc. reflexivity.
      + rewrite lookup_insert_ne by assumption.
        rewrite (filter_cons_False _ progress []) by assumption.
        rewrite filter_nil, app_nil_r. exact IH. }
  split; [exact Hlast|].
  rewrite Hlast, last_None. clear Hlast. split.
  - intros Hnil. apply Forall_forall. intros progress Hin Hname.
    assert (Hmem : progress ∈ filter (fun q => TopicProgress.topic q = name) user_progress)
      by (apply list_elem_of_filter; split; assumption).
    rewrite Hnil in Hmem. inversion Hmem.
  - intros Hall. induction Hall as [|progress ps Hne _ IH]; [reflexivity|].
    rewrite filter_cons_False by assumption. exact IH.
Qed.

(** [get_level_progress] returns the first entry of the topic's progress
    list with the requested level, and [None] exactly when there is none. *)
Theorem get_level_progress_first_match (self : TopicProgress.t) (level : Z) :
  match TopicProgress.get_level_progress self level with
  | Some lp =>
      LevelProgress.level lp = level
      /\ exists pre post : list LevelProgress.t,
           TopicProgress.progress_by_level self = pre ++ lp :: post
           /\ Forall (fun q => LevelProgress.level q <> level) pre
  | None =>
      Forall (fun q => LevelProgress.level q <> level) (TopicProgress.progress_by_level self)
  end.
Proof.
  unfold TopicProgress.get_level_progress.
  induction (TopicProgress.progress_by_level self) as [|q qs IH]; cbn [List.find].
  - constructor.
  - destruct (Z.eqb_spec (LevelProgress.level q) level) as [Heq|Hne].
    + split; [assumption|]. exists [], qs. split; [reflexivity | constructor].
    + destruct (List.find _ qs) as [lp|].
      * destruct IH as (Hlevel & pre & post & Hsplit & Hpre). split; [assumption|].
        exists (q :: pre), post. split; [rewrite Hsplit; reflexivity|].
        constructor; assumption.
      * constructor; assumption.
Qed.

(** ** The service with an arbitrary strategy *)

Lemma recommend_for_topic_any_strategy
    (self : RecommendationService.t) (topic : TopicAvailability.t) (total : Z)
    (p : option TopicProgress.t) (all_topics : list TopicAvailability.t) :
  all_topics <> [] ->
  RecommendationService._recommend_for_topic self topic total p (Some all_topics)
  = (level_recommendations ←
       distribute_questions (RecommendationService.distribution_strategy self)
         (TopicAvailability.available topic) (total / len all_topics) p;
     Ok (TopicRecommendation.mk (TopicAvailability.topic topic) level_recommendations)).
Proof.
  intros Hne. unfold RecommendationService._recommend_for_topic.
  rewrite all_topics_or_nonempty, calculate_topic_allocation_ok by assumption.
  reflexivity.
Qed.

(** What it means for [trec] to be the recommendation the service builds
    for [topic] of [request]: it carries the topic's name and the levels the
    strategy returns for the topic's availability, the allocation
    [total_questions // number of topics] and the progress entry looked up
    under the topic's name. *)
Definition built_for (self : RecommendationService.t) (request : RecommendationRequest.t)
    (topic : TopicAvailability.t) (trec : TopicRecommendation.t) : Prop :=
  TopicRecommendation.name trec = TopicAvailability.topic topic
  /\ distribute_questions (RecommendationService.distribution_strategy self)
       (TopicAvailability.available topic)
       (RecommendationRequest.total_questions request
        / len (RecommendationRequest.user_topics request))
       (RecommendationService._create_progress_lookup
          (RecommendationRequest.user_progress request)
        !! TopicAvailability.topic topic)
     = Ok (TopicRecommendation.recommendations trec).

Lemma generate_loop_any_strategy
    (self : RecommendationService.t) (request : RecommendationRequest.t) :
  RecommendationRequest.user_topics request <> [] ->
  forall (topics : list TopicAvailability.t)
         (acc res : list TopicRecommendation.t),
    RecommendationService.generate_loop self request
      (RecommendationService._create_progress_lookup
         (RecommendationRequest.user_progress request)) topics acc = Ok res
    <-> exists built : list TopicRecommendation.t,
          res = acc ++ built /\ Forall2 (built_for self request) topics built.
Proof.
  intros Hne. induction topics as [|topic topics IH]; intros acc res.
  - cbn [RecommendationService.generate_loop]. split.
    + intros [= <-]. exists []. split; [rewrite app_nil_r; reflexivity | constructor].
    + intros (built & -> & Hbuilt). apply Forall2_nil_inv_l in Hbuilt as ->.
      rewrite app_nil_r. reflexivity.
  - cbn [RecommendationService.generate_loop].
    rewrite recommend_for_topic_any_strategy by assumption.
    destruct (distribute_questions _ _ _ _) as [recs|e] eqn:Hrun; cbn [mbind result_bind].
    + rewrite IH. split.
      * intros (built & -> & Hbuilt).
        exists (TopicRecommendation.mk (TopicAvailability.topic topic) recs :: built).
        split; [rewrite <- app_assoc; reflexivity|].
        constructor; [|assumption]. split; [reflexivity | exact Hrun].
      * intros (built & -> & Hbuilt).
        apply Forall2_cons_inv_l in Hbuilt as ([name recs'] & built' & [Hname Hrecs] & Hrest & ->).
        cbn in Hname, Hrecs. unfold built_for in Hrun. rewrite Hrun in Hrecs.
        injection Hrecs as <-. subst name.
        exists built'. split; [rewrite <- app_assoc; reflexivity | assumption].
    + split; [discriminate|].
      intros (built & _ & Hbuilt).
      apply Forall2_cons_inv_l in Hbuilt as (trec & _ & [_ Hrecs] & _).
      rewrite Hrun in Hrecs. discriminate.
Qed.

(** Whatever strategy is plugged in, [generate_recommendations] returns a
    response exactly when the strategy succeeds on every topic, and the
    response then lists, in input order and under the topic's name, what the
    strategy returned for that topic's levels, the allocation
    [total_questions // number of topics] and the last progress entry with
    the topic's name. *)
Theorem generate_recommendations_calls_strategy_per_topic
    (self : RecommendationService.t) (request : RecommendationRequest.t)
    (response : RecommendationResponse.t) :
  RecommendationService.generate_recommendations self request = Ok response
  <-> Forall2 (built_for self request)
        (RecommendationRequest.user_topics request)
        (RecommendationResponse.topics response).
Proof.
  unfold RecommendationService.generate_recommendations. destruct response as [built].
  cbn [RecommendationResponse.topics].
  destruct (RecommendationRequest.user_topics request) as [|t ts] eqn:Htopics.
  - cbn. split.
    + intros [= <-]. constructor.
    + intros H. apply Forall2_nil_inv_l in H as ->. reflexivity.
  - rewrite <- Htopics.
    assert (Hne : RecommendationRequest.user_topics request <> [])
      by (rewrite Htopics; discriminate).
    pose proof (generate_loop_any_strategy self request Hne
                  (RecommendationRequest.user_topics request) [] built) as Hloop.
    destruct (RecommendationService.generate_loop _ _ _ _ _) as [res|e];
      cbn [mbind result_bind].
    + split.
      * intros [= ->]. destruct (proj1 Hloop eq_refl) as (built' & -> & H). exact H.
      * intros H.
        assert (E : @Ok (list TopicRecommendation.t) res = Ok built)
          by (apply Hloop; exists built; split; [reflexivity | exact H]).
        injection E as ->. reflexivity.
    + split; [discriminate|].
      intros H.
      assert (E : @Raise (list TopicRecommendation.t) e = Ok built)
        by (apply Hloop; exists built; split; [reflexivity | exact H]).
      discriminate.
Qed.

Lemma generate_loop_first_failure
    (self : RecommendationService.t) (request : RecommendationRequest.t)
    (e : exn) (topic : TopicAvailability.t) (post : list TopicAvailability.t) :
  RecommendationRequest.user_topics request <> [] ->
  distribute_questions (RecommendationService.distribution_strategy self)
    (TopicAvailability.available topic)
    (RecommendationRequest.total_questions request
     / len (RecommendationRequest.user_topics request))
    (RecommendationService._create_progress_lookup
       (RecommendationRequest.user_progress request)
     !! TopicAvailability.topic topic)
  = Raise e ->
  forall (pre : list TopicAvailability.t) (acc : list TopicRecommendation.t),
    Forall (fun t => exists trec, built_for self request t trec) pre ->
    RecommendationService.generate_loop self request
      (RecommendationService._create_progress_lookup
         (RecommendationRequest.user_progress request)) (pre ++ topic :: post) acc
    = Raise e.
Proof.
  intros Hne Hfail pre. induction pre as [|t pre IH]; intros acc Hpre.
  - cbn [app RecommendationService.generate_loop].
    rewrite recommend_for_topic_any_strategy by assumption.
    rewrite Hfail. reflexivity.
  - inversion Hpre as [|? ? (trec & _ & Hrun) Hrest]; subst.
    cbn [app RecommendationService.generate_loop].
    rewrite recommend_for_topic_any_strategy by assumption.
    rewrite Hrun. cbn [mbind result_bind]. apply IH. assumption.
Qed.

(** The service fails fast: when the strategy succeeds on the topics before
    [topic] and raises on [topic], [generate_recommendations] raises that
    same exception, whatever follows. *)
Theorem generate_recommendations_fails_fast
    (self : RecommendationService.t) (request : RecommendationRequest.t)
    (pre : list TopicAvailability.t) (topic : TopicAvailability.t)
    (post : list TopicAvailability.t) (e : exn) :
  RecommendationRequest.user_topics request = pre ++ topic :: post ->
  Forall (fun t => exists trec, built_for self request t trec) pre ->
  distribute_questions (RecommendationService.distribution_strategy self)
    (TopicAvailability.available topic)
    (RecommendationRequest.total_questions request
     / len (RecommendationRequest.user_topics request))
    (RecommendationService._create_progress_lookup
       (RecommendationRequest.user_progress request)
     !! TopicAvailability.topic topic)
  = Raise e ->
  RecommendationService.generate_recommendations self request = Raise e.
Proof.
  intros Htopics Hpre Hfail.
  assert (Hne : RecommendationRequest.user_topics request <> [])
    by (rewrite Htopics; destruct pre; discriminate).
  unfold RecommendationService.generate_recommendations.
  rewrite Htopics.
  rewrite (generate_loop_first_failure self request e topic post Hne Hfail pre [] Hpre).
  reflexivity.
Qed.

(** A request whose second topic carries a negative count (not a value
    pydantic would build, but one the service code can be handed). *)
Definition request_negative_count : RecommendationRequest.t :=
  RecommendationRequest.mk 1 4
    [TopicAvailability.mk "A" [lvl 1 10]; TopicAvailability.mk "B" [lvl 1 (-3); lvl 2 5];
     TopicAvailability.mk "C" [lvl 1 1]] [].

Lemma generate_recommendations_fails_fast_witness :
  RecommendationService.generate_recommendations recommendation_service
    request_negative_count
  = Raise (ValidationError "LevelRecommendation" "count" (-3)).
Proof.
  apply (generate_recommendations_fails_fast recommendation_service request_negative_count
           [TopicAvailability.mk "A" [lvl 1 10]]
           (TopicAvailability.mk "B" [lvl 1 (-3); lvl 2 5])
           [TopicAvailability.mk "C" [lvl 1 1]]).
  - reflexivity.
  - repeat constructor. exists (TopicRecommendation.mk "A" [rec_ 1 1]).
    split; vm_compute; reflexivity.
  - vm_compute. reflexivity.
Defined.

(** With [all_topics] left at its default [None], or given as an empty list,
    [_recommend_for_topic] treats the topic as the only one: the strategy
    receives the whole [total_questions]. *)
Theorem recommend_for_topic_default_all_topics
    (self : RecommendationService.t) (topic : TopicAvailability.t) (total : Z)
    (p : option TopicProgress.t) (all_topics : option (list TopicAvailability.t)) :
  all_topics = None \/ all_topics = Some [] ->
  RecommendationService._recommend_for_topic self topic total p all_topics
  = (level_recommendations ←
       distribute_questions (RecommendationService.distribution_strategy self)
         (TopicAvailability.available topic) total p;
     Ok (TopicRecommendation.mk (TopicAvailability.topic topic) level_recommendations)).
Proof.
  intros Hdefault.
  assert (Hor : RecommendationService.all_topics_or all_topics topic = [topic])
    by (destruct Hdefault as [-> | ->]; reflexivity).
  unfold RecommendationService._recommend_for_topic. rewrite Hor.
  rewrite calculate_topic_allocation_ok by discriminate.
  change (len [topic]) with 1. rewrite Z.div_1_r. reflexivity.
Qed.

Lemma recommend_for_topic_default_all_topics_witness :
  RecommendationService._recommend_for_topic recommendation_service
    (TopicAvailability.mk "A" [lvl 1 2; lvl 2 100]) 5 None None
  = Ok (TopicRecommendation.mk "A" [rec_ 1 2; rec_ 2 2]).
Proof.
  rewrite (recommend_for_topic_default_all_topics recommendation_service
             (TopicAvailability.mk "A" [lvl 1 2; lvl 2 100]) 5 None None
             (or_introl eq_refl)).
  reflexivity.
Defined.

(** ** The response as a whole *)

Lemma sum_nonneg (l : list Z) : Forall (fun x => 0 <= x) l -> 0 <= sum l.
Proof.
  induction 1 as [|x l Hx _ IH]; [rewrite sum_nil; lia|]. rewrite sum_cons. lia.
Qed.

Lemma sum_all_zero (l : list Z) : Forall (fun x => x = 0) l -> sum l = 0.
Proof.
  induction 1 as [|x l Hx _ IH]; [reflexivity|]. rewrite sum_cons. lia.
Qed.

Lemma sum_positive_entry (l : list Z) :
  Forall (fun x => 0 <= x) l -> sum l <> 0 -> Exists (fun x => 0 < x) l.
Proof.
  induction 1 as [|x l Hx Hl IH]; [rewrite sum_nil; congruence|].
  rewrite sum_cons. intros Hsum.
  destruct (Z.eq_dec x 0) as [->|Hx0].
  - right. apply IH. lia.
  - left. lia.
Qed.

Lemma validate_ok_inv (request : RecommendationRequest.t) :
  _validate_recommendation_request request = Ok tt ->
  RecommendationRequest.user_topics request <> []
  /\ 0 < RecommendationRequest.total_questions request
  /\ Forall topic_passes (RecommendationRequest.user_topics request).
Proof.
  unfold _validate_recommendation_request.
  destruct (RecommendationRequest.user_topics request) as [|t ts]; [discriminate|].
  destruct (Z.leb_spec (RecommendationRequest.total_questions request) 0) as [HT|HT];
    [discriminate|].
  intros H. apply validate_topics_ok in H. split; [discriminate|]. split; assumption.
Qed.

Lemma clamped_counts_bounds (base extra : Z) (levels : list LevelAvailability.t) :
  0 <= base ->
  forallb LevelAvailability.valid levels = true ->
  Forall2 (fun la c => 0 <= c <= LevelAvailability.count la) levels
    (LevelRecommendation.count <$> imap (clamped base extra) levels).
Proof.
  intros Hbase Hvalid. apply Forall2_same_length_lookup. split.
  - rewrite length_fmap, length_imap. reflexivity.
  - intros i la c Hla Hc. rewrite list_lookup_fmap, list_lookup_imap, Hla in Hc.
    cbn in Hc. injection Hc as <-.
    pose proof (forallb_valid_lookup _ _ _ Hvalid Hla).
    pose proof (questions_for_level_lower base extra (Z.of_nat i)). lia.
Qed.

Lemma topic_total_within_inventory (total n : Z) (topic : TopicAvailability.t) :
  0 <= total / n ->
  TopicAvailability.valid topic = true ->
  0 <= TopicRecommendation.total_recommended (recommend_topic total n topic)
    <= total_available topic.
Proof.
  intros Halloc Hvalid.
  unfold TopicRecommendation.total_recommended, recommend_topic, total_available.
  cbn [TopicRecommendation.recommendations].
  set (levels := TopicAvailability.available topic).
  assert (Hbase : 0 <= total / n / len levels)
    by (apply Z_div_nonneg_nonneg; [assumption | apply len_nonneg]).
  pose proof (clamped_counts_bounds (total / n / len levels) (total / n mod len levels)
                levels Hbase Hvalid) as Hbounds.
  split.
  - apply sum_nonneg, Forall_lookup. intros i c Hc.
    destruct (Forall2_lookup_r _ _ _ _ _ Hbounds Hc) as (la & _ & Hb). apply Hb.
  - apply sum_le_pointwise. apply Forall2_fmap_r, Forall2_flip.
    eapply Forall2_impl; [exact Hbounds|]. intros la c Hb. apply Hb.
Qed.

(** However large [total_questions] is, a topic is never recommended more
    questions than its whole inventory (and never a negative number), and
    so the response's [total_recommended] lies between 0 and the inventory
    of all topics together. *)
Theorem total_recommended_within_inventory (request : RecommendationRequest.t) :
  RecommendationRequest.valid request = true ->
  exists response : RecommendationResponse.t,
    RecommendationService.generate_recommendations recommendation_service request
    = Ok response
    /\ Forall2
         (fun topic trec =>
            0 <= TopicRecommendation.total_recommended trec <= total_available topic)
         (RecommendationRequest.user_topics request)
         (RecommendationResponse.topics response)
    /\ 0 <= RecommendationResponse.total_recommended response
       <= sum (total_available <$> RecommendationRequest.user_topics request).
Proof.
  intros Hvalid. apply request_valid_inv in Hvalid as [HT Hcounts].
  set (T := RecommendationRequest.total_questions request) in *.
  set (topics := RecommendationRequest.user_topics request) in *.
  assert (Halloc : 0 <= T / len topics)
    by (apply Z_div_nonneg_nonneg; [lia | apply len_nonneg]).
  assert (Heach : Forall2
            (fun topic trec =>
               0 <= TopicRecommendation.total_recommended trec <= total_available topic)
            topics (recommend_topic T (len topics) <$> topics)).
  { apply response_topics. intros topic Hin. apply topic_total_within_inventory.
    - assumption.
    - rewrite forallb_forall in Hcounts. apply Hcounts, list_elem_of_In. assumption. }
  eexists. split; [apply generate_recommendations_ok; [lia | assumption]|].
  cbn [RecommendationResponse.topics]. fold T topics. split; [exact Heach|].
  unfold RecommendationResponse.total_recommended. cbn [RecommendationResponse.topics].
  split.
  - apply sum_nonneg, Forall_fmap, Forall_lookup. intros i trec Htrec.
    destruct (Forall2_lookup_r _ _ _ _ _ Heach Htrec) as (topic & _ & Hb).
    cbn in Hb |- *. lia.
  - apply sum_le_pointwise, Forall2_fmap, Forall2_flip.
    eapply Forall2_impl; [exact Heach|]. intros topic trec Hb. apply Hb.
Qed.

Lemma total_recommended_within_inventory_witness :
  exists response : RecommendationResponse.t,
    RecommendationService.generate_recommendations recommendation_service
      (request_two_topics 50) = Ok response
    /\ 0 <= RecommendationResponse.total_recommended response
       <= sum (total_available <$> RecommendationRequest.user_topics (request_two_topics 50)).
Proof.
  destruct (total_recommended_within_inventory (request_two_topics 50) eq_refl)
    as (response & Hgen & _ & Hbounds).
  exists response. split; [exact Hgen | exact Hbounds].
Defined.

Lemma clamped_zero_allocation (L : Z) (i : nat) (la : LevelAvailability.t) :
  0 <= LevelAvailability.count la ->
  LevelRecommendation.count (clamped (0 / L) (0 mod L) i la) = 0.
Proof.
  intros Hla. unfold clamped, questions_for_level. cbn [LevelRecommendation.count].
  rewrite Zdiv_0_l, Zmod_0_l.
  destruct (Z.ltb_spec (Z.of_nat i) 0); lia.
Qed.

(** When a request asks for fewer questions than it has topics, every topic
    is allocated [0] and, although the request passes validation, nothing
    at all is recommended. *)
Theorem fewer_questions_than_topics_recommends_nothing
    (request : RecommendationRequest.t) :
  RecommendationRequest.valid request = true ->
  _validate_recommendation_request request = Ok tt ->
  RecommendationRequest.total_questions request
  < len (RecommendationRequest.user_topics request) ->
  exists response : RecommendationResponse.t,
    RecommendationService.generate_recommendations recommendation_service request
    = Ok response
    /\ Forall (fun trec =>
                 Forall (fun lr => LevelRecommendation.count lr = 0)
                   (TopicRecommendation.recommendations trec))
         (RecommendationResponse.topics response)
    /\ RecommendationResponse.total_recommended response = 0.
Proof.
  intros Hvalid _ Hfew. apply request_valid_inv in Hvalid as [HT Hcounts].
  set (T := RecommendationRequest.total_questions request) in *.
  set (topics := RecommendationRequest.user_topics request) in *.
  assert (Hzero : T / len topics = 0) by (apply Z.div_small; lia).
  assert (Heach : Forall (fun trec =>
                    Forall (fun lr => LevelRecommendation.count lr = 0)
                      (TopicRecommendation.recommendations trec))
                    (recommend_topic T (len topics) <$> topics)).
  { apply Forall_fmap, Forall_forall. intros topic Hin. cbn.
    unfold recommend_topic. cbn [TopicRecommendation.recommendations]. rewrite Hzero.
    apply Forall_lookup. intros i lr Hlr. rewrite list_lookup_imap in Hlr.
    destruct (TopicAvailability.available topic !! i) as [la|] eqn:Hla; [|discriminate].
    cbn in Hlr. injection Hlr as <-. apply clamped_zero_allocation.
    apply (forallb_valid_lookup (TopicAvailability.available topic) i); [|assumption].
    rewrite forallb_forall in Hcounts. apply Hcounts, list_elem_of_In. assumption. }
  eexists. split; [apply generate_recommendations_ok; [lia | assumption]|].
  cbn [RecommendationResponse.topics]. fold T topics. split; [exact Heach|].
  unfold RecommendationResponse.total_recommended. cbn [RecommendationResponse.topics].
  apply sum_all_zero, Forall_fmap. eapply Forall_impl; [exact Heach|].
  intros trec Htrec. cbn. unfold TopicRecommendation.total_recommended.
  apply sum_all_zero, Forall_fmap. exact Htrec.
Qed.

Lemma fewer_questions_than_topics_recommends_nothing_witness :
  RecommendationService.generate_recommendations recommendation_service (request_two_topics 1)
  = Ok (RecommendationResponse.mk
          [TopicRecommendation.mk "A" [rec_ 1 0]; TopicRecommendation.mk "B" [rec_ 1 0]])
  /\ exists response : RecommendationResponse.t,
       RecommendationService.generate_recommendations recommendation_service
         (request_two_topics 1) = Ok response
       /\ RecommendationResponse.total_recommended response = 0.
Proof.
  split; [vm_compute; reflexivity|].
  destruct (fewer_questions_than_topics_recommends_nothing (request_two_topics 1)
              eq_refl eq_refl eq_refl) as (response & Hgen & _ & Htotal).
  exists response. split; [exact Hgen | exact Htotal].
Defined.

Lemma clamped_counts_without_clamping (A : Z) (levels : list LevelAvailability.t) :
  levels <> [] ->
  Forall (fun la => (A + len levels - 1) / len levels <= LevelAvailability.count la) levels ->
  LevelRecommendation.count <$> imap (clamped (A / len levels) (A mod len levels)) levels
  = raw_counts (A / len levels) (A mod len levels) levels.
Proof.
  intros Hne Hroom. pose proof (len_pos _ _ Hne) as HL.
  unfold raw_counts. apply list_eq. intros i.
  rewrite list_lookup_fmap, !list_lookup_imap.
  destruct (levels !! i) as [la|] eqn:Hla; [|reflexivity].
  cbn. f_equal. apply Z.min_l.
  pose proof (lookup_index_bound _ _ _ _ Hla) as Hi.
  rewrite Forall_lookup in Hroom. specialize (Hroom i la Hla). cbn in Hroom.
  pose proof (questions_for_level_le_ceiling A (len levels) (Z.of_nat i) HL).
  lia.
Qed.

(** When, in every topic, each level holds at least the ceiling of
    [(T // N) / L] questions (L the number of levels of the topic), a
    request that passes validation is recommended exactly [T // N] questions
    per topic and [N * (T // N)] in total: the only questions lost are the
    [T mod N] the topic split drops. *)
Theorem response_total_exact_when_inventory_suffices
    (request : RecommendationRequest.t) :
  let T := RecommendationRequest.total_questions request in
  let N := len (RecommendationRequest.user_topics request) in
  _validate_recommendation_request request = Ok tt ->
  Forall (fun topic =>
            let levels := TopicAvailability.available topic in
            Forall (fun la => (T / N + len levels - 1) / len levels
                              <= LevelAvailability.count la) levels)
    (RecommendationRequest.user_topics request) ->
  exists response : RecommendationResponse.t,
    RecommendationService.generate_recommendations recommendation_service request
    = Ok response
    /\ Forall (fun trec => TopicRecommendation.total_recommended trec = T / N)
         (RecommendationResponse.topics response)
    /\ RecommendationResponse.total_recommended response = N * (T / N)
    /\ RecommendationResponse.total_recommended response = T - T mod N.
Proof.
  intros T N Hgate Hroom.
  apply validate_ok_inv in Hgate as (Hne & HT & Hpass). fold T in HT.
  pose proof (len_pos _ _ Hne) as HN. fold N in HN.
  assert (Halloc : 0 <= T / N) by (apply Z.div_pos; lia).
  set (topics := RecommendationRequest.user_topics request) in *.
  assert (Hcounts : forallb TopicAvailability.valid topics = true).
  { apply forallb_forall. intros topic Hin. apply list_elem_of_In in Hin.
    rewrite Forall_forall in Hroom, Hpass.
    pose proof (Hroom topic Hin) as Hr. pose proof (Hpass topic Hin) as [Hlv _]. cbn in Hr.
    eapply forallb_valid_of_lower_bound; [|exact Hr].
    apply Z.div_pos; [|apply len_pos; assumption].
    pose proof (len_pos _ _ Hlv). lia. }
  assert (Heach : Forall (fun trec => TopicRecommendation.total_recommended trec = T / N)
                    (recommend_topic T N <$> topics)).
  { apply Forall_fmap, Forall_forall. intros topic Hin. cbn.
    rewrite Forall_forall in Hroom, Hpass.
    pose proof (Hroom topic Hin) as Hr. pose proof (Hpass topic Hin) as [Hlv _]. cbn in Hr.
    unfold TopicRecommendation.total_recommended, recommend_topic.
    cbn [TopicRecommendation.recommendations].
    rewrite clamped_counts_without_clamping by assumption.
    apply sum_raw_counts_exact. assumption. }
  assert (Htotal : sum (TopicRecommendation.total_recommended
                          <$> (recommend_topic T N <$> topics)) = N * (T / N)).
  { transitivity (sum ((fun _ => T / N) <$> (recommend_topic T N <$> topics))).
    - f_equal. apply Forall_fmap_ext. exact Heach.
    - rewrite sum_const. unfold len. rewrite length_fmap.
      fold (len topics). fold N. reflexivity. }
  eexists. split; [apply generate_recommendations_ok; [fold T; lia | assumption]|].
  cbn [RecommendationResponse.topics]. fold T topics N.
  unfold RecommendationResponse.total_recommended. cbn [RecommendationResponse.topics].
  split; [exact Heach|]. split; [exact Htotal|].
  rewrite Htotal. pose proof (Z.div_mod T N). lia.
Qed.

Lemma response_total_exact_when_inventory_suffices_witness :
  exists response : RecommendationResponse.t,
    RecommendationService.generate_recommendations recommendation_service
      (request_two_topics 7) = Ok response
    /\ RecommendationResponse.total_recommended response = 7 - 7 mod 2.
Proof.
  assert (Hroom :
    Forall (fun topic =>
              let levels := TopicAvailability.available topic in
              Forall (fun la => (7 / 2 + len levels - 1) / len levels
                                <= LevelAvailability.count la) levels)
      (RecommendationRequest.user_topics (request_two_topics 7))).
  { repeat constructor; vm_compute; discriminate. }
  destruct (response_total_exact_when_inventory_suffices (request_two_topics 7)
              eq_refl Hroom) as (response & Hgen & _ & _ & Htotal).
  exists response. split; [exact Hgen | exact Htotal].
Defined.

(** What a topic is recommended depends only on the topic itself, on
    [total_questions] and on how many topics the request has: two
    well-formed requests that agree on these get the same recommendation for
    the topic, whatever their other topics, user and progress data are. *)
Theorem topic_recommendation_independent_of_other_topics
    (request1 request2 : RecommendationRequest.t) (i : nat) (topic : TopicAvailability.t) :
  RecommendationRequest.valid request1 = true ->
  RecommendationRequest.valid request2 = true ->
  RecommendationRequest.total_questions request1
  = RecommendationRequest.total_questions request2 ->
  length (RecommendationRequest.user_topics request1)
  = length (RecommendationRequest.user_topics request2) ->
  RecommendationRequest.user_topics request1 !! i = Some topic ->
  RecommendationRequest.user_topics request2 !! i = Some topic ->
  exists (response1 response2 : RecommendationResponse.t) (trec : TopicRecommendation.t),
    RecommendationService.generate_recommendations recommendation_service request1
    = Ok response1
    /\ RecommendationService.generate_recommendations recommendation_service request2
       = Ok response2
    /\ RecommendationResponse.topics response1 !! i = Some trec
    /\ RecommendationResponse.topics response2 !! i = Some trec.
Proof.
  intros Hvalid1 Hvalid2 Htotal Hlen Htopic1 Htopic2.
  apply request_valid_inv in Hvalid1 as [HT1 Hcounts1].
  apply request_valid_inv in Hvalid2 as [HT2 Hcounts2].
  do 2 eexists.
  exists (recommend_topic (RecommendationRequest.total_questions request1)
            (len (RecommendationRequest.user_topics request1)) topic).
  split; [apply generate_recommendations_ok; [lia | assumption]|].
  split; [apply generate_recommendations_ok; [lia | assumption]|].
  cbn [RecommendationResponse.topics]. rewrite !list_lookup_fmap, Htopic1, Htopic2.
  unfold len. rewrite Htotal, Hlen. split; reflexivity.
Qed.

Definition request_other_topics : RecommendationRequest.t :=
  RecommendationRequest.mk 2 7
    [TopicAvailability.mk "C" [lvl 1 0; lvl 2 1]; TopicAvailability.mk "B" [lvl 1 10]]
    [TopicProgress.mk "B" [LevelProgress.mk 1 9 9]].

Lemma topic_recommendation_independent_of_other_topics_witness :
  exists (response1 response2 : RecommendationResponse.t) (trec : TopicRecommendation.t),
    RecommendationService.generate_recommendations recommendation_service
      (request_two_topics 7) = Ok response1
    /\ RecommendationService.generate_recommendations recommendation_service
         request_other_topics = Ok response2
    /\ RecommendationResponse.topics response1 !! 1%nat = Some trec
    /\ RecommendationResponse.topics response2 !! 1%nat = Some trec.
Proof.
  exact (topic_recommendation_independent_of_other_topics
           (request_two_topics 7) request_other_topics 1
           (TopicAvailability.mk "B" [lvl 1 10])
           eq_refl eq_refl eq_refl eq_refl eq_refl eq_refl).
Defined.

(** In a well-formed request that passes validation every topic has at
    least one level with a positive number of available questions. *)
Theorem validated_topics_have_inventory (request : RecommendationRequest.t) :
  RecommendationRequest.valid request = true ->
  _validate_recommendation_request request = Ok tt ->
  Forall (fun topic =>
            Exists (fun la => 0 < LevelAvailability.count la)
              (TopicAvailability.available topic))
    (RecommendationRequest.user_topics request).
Proof.
  intros Hvalid Hgate. apply request_valid_inv in Hvalid as [_ Hcounts].
  apply validate_ok_inv in Hgate as (_ & _ & Hpass).
  apply Forall_forall. intros topic Hin.
  rewrite Forall_forall in Hpass. destruct (Hpass topic Hin) as [_ Hsum].
  rewrite forallb_forall in Hcounts.
  pose proof (Hcounts topic (proj1 (list_elem_of_In _ _) Hin)) as Htopic.
  unfold TopicAvailability.valid in Htopic. rewrite forallb_forall in Htopic.
  unfold total_available in Hsum.
  apply sum_positive_entry in Hsum.
  - apply Exists_exists in Hsum as (c & Hc & Hpos).
    apply list_elem_of_fmap in Hc as (la & -> & Hla).
    apply Exists_exists. exists la. split; assumption.
  - apply Forall_fmap, Forall_forall. intros la Hla. cbn.
    apply Z.leb_le, (Htopic la), list_elem_of_In. assumption.
Qed.

Lemma validated_topics_have_inventory_witness :
  Forall (fun topic =>
            Exists (fun la => 0 < LevelAvailability.count la)
              (TopicAvailability.available topic))
    (RecommendationRequest.user_topics request_other_topics).
Proof.
  exact (validated_topics_have_inventory request_other_topics eq_refl eq_refl).
Defined.

(** ** What is lost to clamping *)

Lemma sum_imap_plus (A : Type) (l : list A) :
  forall f g h : nat -> A -> Z,
    (forall (i : nat) (x : A), l !! i = Some x -> f i x + g i x = h i x) ->
    sum (imap f l) + sum (imap g l) = sum (imap h l).
Proof.
  induction l as [|x l IH]; intros f g h Hfgh.
  - reflexivity.
  - rewrite !imap_cons, !sum_cons.
    pose proof (Hfgh 0%nat x eq_refl) as H0.
    pose proof (IH (f ∘ S) (g ∘ S) (h ∘ S) (fun i y Hy => Hfgh (S i) y Hy)) as Hrest.
    lia.
Qed.

(** The surplus a level cannot take, [max 0 (raw count - available count)],
    is not handed to any other level: the recommendations of a topic add up
    to the allocation minus the surplus of all its levels. *)
Theorem distribution_shortfall_is_clamped_surplus
    (levels : list LevelAvailability.t) (A : Z) (p : option TopicProgress.t) :
  levels <> [] -> 0 <= A ->
  forallb LevelAvailability.valid levels = true ->
  let base := A / len levels in
  let extra := A mod len levels in
  exists recs : list LevelRecommendation.t,
    distribute_questions EvenDistributionStrategy levels A p = Ok recs
    /\ sum (LevelRecommendation.count <$> recs)
       = A - sum (imap (fun i la =>
                          Z.max 0 (questions_for_level base extra (Z.of_nat i)
                                   - LevelAvailability.count la)) levels).
Proof.
  intros Hne HA Hvalid base extra. eexists. split.
  - cbn [distribute_questions EvenDistributionStrategy].
    apply even_distribute_questions_ok; assumption.
  - fold base extra. rewrite fmap_imap.
    rewrite <- (sum_raw_counts_exact A levels Hne) at 1. fold base extra.
    unfold raw_counts.
    rewrite <- (sum_imap_plus _ levels
                  (fun n => LevelRecommendation.count ∘ clamped base extra n)
                  (fun i la => Z.max 0 (questions_for_level base extra (Z.of_nat i)
                                        - LevelAvailability.count la))
                  (fun i _ => questions_for_level base extra (Z.of_nat i))).
    + lia.
    + intros i la _. cbn. lia.
Qed.

Lemma distribution_shortfall_is_clamped_surplus_witness :
  let levels := [lvl 1 2; lvl 2 100; lvl 3 1] in
  exists recs : list LevelRecommendation.t,
    distribute_questions EvenDistributionStrategy levels 10 None = Ok recs
    /\ sum (LevelRecommendation.count <$> recs) = 10 - 4.
Proof.
  intros levels.
  assert (Hne : levels <> []) by discriminate.
  assert (HA : 0 <= 10) by lia.
  exact (distribution_shortfall_is_clamped_surplus levels 10 None Hne HA eq_refl).
Defined.

(** ** The only exception of the default service *)

(** A result that is either a value or pydantic's rejection of a negative
    [LevelRecommendation] count. *)
Definition ok_or_negative_count {A : Type} (r : result A) : Prop :=
  match r with
  | Ok _ => True
  | Raise e =>
      exists value : Z,
        e = ValidationError "LevelRecommendation" "count" value /\ value < 0
  end.

Lemma even_distribution_loop_outcome (base extra : Z) (levels : list LevelAvailability.t) :
  forall (i : Z) (acc : list LevelRecommendation.t),
    ok_or_negative_count (even_distribution_loop base extra i levels acc).
Proof.
  induction levels as [|la levels IH]; intros i acc; cbn [even_distribution_loop].
  - exact I.
  - unfold LevelRecommendation.new.
    destruct (Z.leb_spec 0 (Z.min (questions_for_level base extra i)
                                  (LevelAvailability.count la))) as [Hok|Hbad];
      cbn [mbind result_bind].
    + apply IH.
    + eexists. split; [reflexivity | assumption].
Qed.

Lemma even_distribute_questions_outcome
    (levels : list LevelAvailability.t) (A : Z) (p : option TopicProgress.t) :
  ok_or_negative_count (even_distribute_questions levels A p).
Proof.
  unfold even_distribute_questions. destruct levels as [|la levels']; [exact I|].
  unfold py_floordiv, py_mod.
  destruct (Z.eqb_spec (len (la :: levels')) 0) as [H0|_].
  - unfold len in H0. simpl length in H0. lia.
  - cbn [mbind result_bind]. apply even_distribution_loop_outcome.
Qed.

Lemma calculate_topic_allocation_total
    (current_topic : TopicAvailability.t) (total : Z) (all_topics : list TopicAvailability.t) :
  exists allocation : Z,
    RecommendationService._calculate_topic_allocation current_topic total all_topics
    = Ok allocation.
Proof.
  unfold RecommendationService._calculate_topic_allocation, py_floordiv.
  destruct (Z.ltb_spec 0 (len all_topics)) as [Hpos|_]; [|eauto].
  destruct (Z.eqb_spec (len all_topics) 0) as [H0|_]; [lia | eauto].
Qed.

Lemma generate_loop_outcome
    (request : RecommendationRequest.t) (lookup : gmap string TopicProgress.t)
    (topics : list TopicAvailability.t) :
  forall acc : list TopicRecommendation.t,
    ok_or_negative_count
      (RecommendationService.generate_loop recommendation_service request lookup topics acc).
Proof.
  induction topics as [|topic topics IH]; intros acc;
    cbn [RecommendationService.generate_loop]; [exact I|].
  unfold RecommendationService._recommend_for_topic.
  destruct (calculate_topic_allocation_total topic
              (RecommendationRequest.total_questions request)
              (RecommendationService.all_topics_or
                 (Some (RecommendationRequest.user_topics request)) topic))
    as [allocation ->].
  cbn [mbind result_bind recommendation_service RecommendationService.__init__
       RecommendationService.distribution_strategy
       EvenDistributionStrategy distribute_questions].
  pose proof (even_distribute_questions_outcome (TopicAvailability.available topic)
                allocation (lookup !! TopicAvailability.topic topic)) as Hrun.
  destruct (even_distribute_questions _ _ _) as [recs|e]; cbn [mbind result_bind].
  - apply IH.
  - exact Hrun.
Qed.

(** Whatever request the default service is handed, also one that is not
    well-formed or was never validated, it never divides by zero: it either
    returns a response or raises pydantic's [ValidationError] for a negative
    [LevelRecommendation] count. *)
Lemma generate_recommendations_outcome (request : RecommendationRequest.t) :
  ok_or_negative_count
    (RecommendationService.generate_recommendations recommendation_service request).
Proof.
  unfold RecommendationService.generate_recommendations.
  pose proof (generate_loop_outcome request
                (RecommendationService._create_progress_lookup
                   (RecommendationRequest.user_progress request))
                (RecommendationRequest.user_topics request) []) as Hloop.
  destruct (RecommendationService.generate_loop _ _ _ _ _) as [built|e];
    cbn [mbind result_bind]; [exact I | exact Hloop].
Qed.

(** ** The endpoint *)

Lemma default_response_total_bounds (T : Z) (topics : list TopicAvailability.t) :
  0 <= T ->
  forallb TopicAvailability.valid topics = true ->
  0 <= RecommendationResponse.total_recommended
         (RecommendationResponse.mk (recommend_topic T (len topics) <$> topics))
    <= T.
Proof.
  intros HT Hcounts.
  assert (Halloc : 0 <= T / len topics)
    by (apply Z_div_nonneg_nonneg; [assumption | apply len_nonneg]).
  unfold RecommendationResponse.total_recommended. cbn [RecommendationResponse.topics].
  split.
  - apply sum_nonneg, Forall_fmap, Forall_fmap, Forall_forall. intros topic Hin. cbn.
    apply topic_total_within_inventory; [assumption|].
    rewrite forallb_forall in Hcounts. apply Hcounts, list_elem_of_In. assumption.
  - destruct topics as [|t ts] eqn:Htopics; [cbn [fmap list_fmap]; rewrite sum_nil; assumption|].
    rewrite <- Htopics in *.
    assert (HN : 0 < len topics) by (apply len_pos; rewrite Htopics; discriminate).
    etransitivity; [apply sum_le_const with (c := T / len topics)|].
    + apply Forall_fmap, Forall_fmap, Forall_forall. intros topic _. cbn.
      apply topic_total_le_allocation. assumption.
    + unfold len at 1. rewrite !length_fmap. fold (len topics).
      pose proof (Z.div_mod T (len topics)).
      pose proof (Z.mod_pos_bound T (len topics) HN). lia.
Qed.

(** For a well-formed request whose user id, total_questions and number
    of topics are within the interpreter's limit on integer to string
    conversion, the handler with the default service never raises status
    500 and lets no exception escape: it returns the service's response when
    validation passes, and raises status 400 with the validation message
    otherwise. *)
Theorem endpoint_answers_response_or_400
    (str_ValidationError : string -> string -> Z -> string)
    (int_max_str_digits : Z) (request : RecommendationRequest.t) :
  RecommendationRequest.valid request = true ->
  loggable int_max_str_digits request = true ->
  (exists response : RecommendationResponse.t,
     _validate_recommendation_request request = Ok tt
     /\ RecommendationService.generate_recommendations recommendation_service request
        = Ok response
     /\ recommend_questions str_ValidationError int_max_str_digits
          recommendation_service request
        = Returns response)
  \/ (exists message : string,
        _validate_recommendation_request request = Raise (ValueError message)
        /\ recommend_questions str_ValidationError int_max_str_digits
             recommendation_service request
           = RaisesHTTP (mkHTTPException 400 message)).
Proof.
  intros Hvalid Hlog. apply request_valid_inv in Hvalid as [HT Hcounts].
  destruct (_validate_recommendation_request request) as [[]|e] eqn:Hgate.
  - left. eexists. split; [reflexivity|].
    assert (Hgen := generate_recommendations_ok request ltac:(lia) Hcounts).
    split; [exact Hgen|].
    apply recommend_questions_returns; try assumption.
    destruct (loggable_inv _ _ Hlog) as (_ & Htotal & _).
    apply int_str_ok_le with (n := RecommendationRequest.total_questions request);
      [|assumption].
    pose proof (default_response_total_bounds
                  (RecommendationRequest.total_questions request)
                  (RecommendationRequest.user_topics request) ltac:(lia) Hcounts).
    lia.
  - right. destruct (validate_raises_ValueError request e Hgate) as [message ->].
    exists message. split; [reflexivity|].
    apply recommend_questions_rejected; assumption.
Qed.

Lemma request_no_inventory_loggable : loggable 4300 request_no_inventory = true.
Proof.
  unfold loggable. rewrite !andb_true_iff. repeat split;
    apply int_str_ok_below with (k := 1); vm_compute; intuition discriminate.
Qed.

Lemma request_two_topics_loggable : loggable 4300 (request_two_topics 7) = true.
Proof.
  unfold loggable. rewrite !andb_true_iff. repeat split;
    apply int_str_ok_below with (k := 1); vm_compute; intuition discriminate.
Qed.

Lemma endpoint_answers_response_or_400_witness :
  recommend_questions (fun _ _ _ => EmptyString) 4300 recommendation_service
    request_no_inventory
  = RaisesHTTP (mkHTTPException 400 "Topic 'B' has no available questions").
Proof.
  destruct (endpoint_answers_response_or_400 (fun _ _ _ => EmptyString) 4300
              request_no_inventory eq_refl request_no_inventory_loggable)
    as [(response & Hgate & _) | (message & Hgate & Hanswer)].
  - discriminate Hgate.
  - rewrite Hanswer. injection Hgate as <-. reflexivity.
Defined.

(** A service left with the abstract base strategy cannot serve any
    request that passes validation: the strategy raises
    [NotImplementedError] on the first topic, and the handler, when the
    integers it logs are within the interpreter's conversion limit, raises
    status 500 with the generic message. *)
Theorem endpoint_with_abstract_strategy_answers_500
    (str_ValidationError : string -> string -> Z -> string)
    (int_max_str_digits : Z) (request : RecommendationRequest.t) :
  _validate_recommendation_request request = Ok tt ->
  RecommendationService.generate_recommendations
    (RecommendationService.mk AbstractDistributionStrategy) request
  = Raise NotImplementedError
  /\ (loggable int_max_str_digits request = true ->
      recommend_questions str_ValidationError int_max_str_digits
        (RecommendationService.mk AbstractDistributionStrategy) request
      = RaisesHTTP (mkHTTPException 500 msg_internal_error)).
Proof.
  intros Hgate.
  assert (Hgen : RecommendationService.generate_recommendations
                   (RecommendationService.mk AbstractDistributionStrategy) request
                 = Raise NotImplementedError).
  { unfold RecommendationService.generate_recommendations.
    destruct (RecommendationRequest.user_topics request) as [|t ts] eqn:Htopics.
    - unfold _validate_recommendation_request in Hgate. rewrite Htopics in Hgate.
      discriminate.
    - assert (Hne : RecommendationRequest.user_topics request <> [])
        by (rewrite Htopics; discriminate).
      change (t :: ts) with ([] ++ t :: ts).
      rewrite (generate_loop_first_failure
                 (RecommendationService.mk AbstractDistributionStrategy)
                 request NotImplementedError t ts Hne eq_refl [] [] (Forall_nil_2 _)).
      reflexivity. }
  split; [exact Hgen|]. intros Hlog.
  rewrite (recommend_questions_service_raises _ _ _ _ NotImplementedError Hlog Hgate Hgen).
  reflexivity.
Qed.

Lemma endpoint_with_abstract_strategy_answers_500_witness :
  recommend_questions (fun _ _ _ => EmptyString) 4300
    (RecommendationService.mk AbstractDistributionStrategy) (request_two_topics 7)
  = RaisesHTTP (mkHTTPException 500 msg_internal_error).
Proof.
  exact (proj2 (endpoint_with_abstract_strategy_answers_500 (fun _ _ _ => EmptyString)
                  4300 (request_two_topics 7) eq_refl) request_two_topics_loggable).
Defined.

(** Everything that can go wrong inside the [try] block of the handler with
    the default service is a [ValueError]. *)
Lemma default_body_raises_ValueError
    (limit : Z) (request : RecommendationRequest.t) (e : exn) :
  (_ ← log_processing limit request;
   _ ← log_request_details limit request;
   _ ← _validate_recommendation_request request;
   response ←
     RecommendationService.generate_recommendations recommendation_service request;
   _ ← log_generated limit request response;
   Ok response) = Raise e ->
  is_ValueError e = true.
Proof.
  unfold log_processing, log_request_details, log_generated, str_int.
  destruct (int_str_ok limit (RecommendationRequest.user_id request));
    cbn [mbind result_bind]; [|intros [= <-]; reflexivity].
  destruct (int_str_ok limit (RecommendationRequest.total_questions request));
    cbn [mbind result_bind]; [|intros [= <-]; reflexivity].
  destruct (int_str_ok limit (len (RecommendationRequest.user_topics request)));
    cbn [mbind result_bind]; [|intros [= <-]; reflexivity].
  destruct (_validate_recommendation_request request) as [[]|e0] eqn:Hgate;
    cbn [mbind result_bind].
  2:{ intros [= <-]. destruct (validate_raises_ValueError request e0 Hgate) as [m ->].
      reflexivity. }
  pose proof (generate_recommendations_outcome request) as Hgen.
  destruct (RecommendationService.generate_recommendations _ _) as [response|e1];
    cbn [mbind result_bind].
  2:{ intros [= <-]. destruct Hgen as (value & -> & _). reflexivity. }
  destruct (int_str_ok limit (RecommendationResponse.total_recommended response));
    cbn [mbind result_bind]; [discriminate | intros [= <-]; reflexivity].
Qed.

(** For every request whatsoever and every conversion limit, the default
    service returns a response or raises pydantic's [ValidationError] for a
    negative count, and the handler never raises status 500: it returns a
    response, raises status 400, or, only when the user id itself exceeds
    the interpreter's conversion limit, lets the [ValueError] of that
    conversion escape from its [except ValueError] block. *)
Theorem default_service_raises_only_validation_errors
    (str_ValidationError : string -> string -> Z -> string)
    (int_max_str_digits : Z) (request : RecommendationRequest.t) :
  ok_or_negative_count
    (RecommendationService.generate_recommendations recommendation_service request)
  /\ match recommend_questions str_ValidationError int_max_str_digits
            recommendation_service request with
     | Returns _ => True
     | RaisesHTTP (mkHTTPException status_code _) => status_code = 400
     | RaisesOther e =>
         int_str_ok int_max_str_digits (RecommendationRequest.user_id request) = false
         /\ e = ValueError (msg_int_limit int_max_str_digits)
     end.
Proof.
  split; [apply generate_recommendations_outcome|].
  pose proof (default_body_raises_ValueError int_max_str_digits request) as Hbody.
  unfold recommend_questions.
  destruct (_ ← log_processing int_max_str_digits request; _) as [response|e];
    [exact I|].
  rewrite (Hbody e eq_refl). unfold log_validation_error, str_int.
  destruct (int_str_ok int_max_str_digits (RecommendationRequest.user_id request));
    cbn [mbind result_bind]; [reflexivity | split; reflexivity].
Qed.

(** ** The handler at integers beyond the conversion limit *)

Example msg_int_limit_default :
  msg_int_limit 4300
  = "Exceeds the limit (4300 digits) for integer string conversion; use sys.set_int_max_str_digits() to increase the limit".
Proof. vm_compute. reflexivity. Qed.

Lemma int_str_ok_beyond (limit k : Z) :
  0 < limit <= k -> int_str_ok limit (10 ^ k) = false.
Proof.
  intros Hk. unfold int_str_ok. apply negb_false_iff, andb_true_iff. split.
  - apply Z.ltb_lt. lia.
  - apply Z.leb_le. rewrite Z.abs_eq by (apply Z.pow_nonneg; lia).
    apply Z.pow_le_mono_r; lia.
Qed.

(** A [total_questions] of 5001 digits: the second log message cannot be
    built, the [ValueError] is caught and reported as status 400. *)
Example giant_total_questions_answers_400
    (str_ValidationError : string -> string -> Z -> string) :
  recommend_questions str_ValidationError 4300 recommendation_service
    (RecommendationRequest.mk 1 (10 ^ 5000) [TopicAvailability.mk "A" [lvl 1 10]] [])
  = RaisesHTTP (mkHTTPException 400 (msg_int_limit 4300)).
Proof.
  unfold recommend_questions, log_processing, log_request_details, log_validation_error.
  cbn [RecommendationRequest.user_id RecommendationRequest.total_questions].
  rewrite (str_int_ok 4300 1)
    by (apply int_str_ok_below with (k := 1); vm_compute; intuition discriminate).
  rewrite (str_int_raises 4300 (10 ^ 5000)) by (apply int_str_ok_beyond; lia).
  reflexivity.
Qed.

(** A [user_id] of 5001 digits: the first log message cannot be built, and
    neither can the one of the [except ValueError] block, whose [ValueError]
    leaves the handler. *)
Example giant_user_id_escapes
    (str_ValidationError : string -> string -> Z -> string)
    (total_questions : Z) (user_topics : list TopicAvailability.t)
    (user_progress : list TopicProgress.t) :
  recommend_questions str_ValidationError 4300 recommendation_service
    (RecommendationRequest.mk (10 ^ 5000) total_questions user_topics user_progress)
  = RaisesOther (ValueError (msg_int_limit 4300)).
Proof.
  unfold recommend_questions, log_processing, log_validation_error.
  cbn [RecommendationRequest.user_id].
  rewrite (str_int_raises 4300 (10 ^ 5000)) by (apply int_str_ok_beyond; lia).
  reflexivity.
Qed.
